(** * Hydrogen-like orbital density ([orbitals.py])

    A shallow embedding of the numerical core of [orbitals.py]:
    [radial_wavefunction], [angular_wavefunction] and [compute_density],
    and of the script around it: [orbital_sequence], the option lists of
    the select boxes, the maximum of the field and the isosurface level.

    - NumPy's [float64] is the kernel's binary64 ([PrimFloat]); the arithmetic
      the program itself performs (sums, products, quotients, square roots,
      comparisons, the [maximum]/[clip] selections) is computed bit for bit.
    - Python integers are [Z]; [float_of_int] is the correctly rounded
      conversion CPython applies in mixed arithmetic.  Resource limits
      (memory, integers beyond the binary64 range) are outside the model.
    - A NumPy array is a shape together with its elements in C order.
    - The transcendental and special functions come from libm / NumPy / SciPy
      and are not part of the repository: the program is embedded over a
      record [SpecialFunctions] of them, and [RefLib] gives an executable
      binary64 instance.
    - A Python exception is a value of [exn]; code that can raise returns a
      [result].
    - NumPy's floating-point error state and Python's warning registry are
      modelled for the division of line 45 ([FPErr]); the reports of the
      other ufunc calls are not. *)

From Stdlib Require Import ZArith List Floats Lia Bool String.
Import ListNotations.

Set Implicit Arguments.

(** ** Python exceptions *)

Module Py.

Inductive exn : Type :=
| ValueError (msg : string)
| ZeroDivisionError (msg : string).

(** The name of the exception's class, as [type(e).__name__]. *)
Definition exn_class (e : exn) : string :=
  match e with
  | ValueError _ => "ValueError"
  | ZeroDivisionError _ => "ZeroDivisionError"
  end.

Inductive result (A : Type) : Type :=
| Ok (a : A)
| Raise (e : exn).

Arguments Ok {A} a.
Arguments Raise {A} e.

Definition bind {A B : Type} (c : result A) (k : A -> result B) : result B :=
  match c with
  | Ok a => k a
  | Raise e => Raise e
  end.

Definition is_ok {A : Type} (c : result A) : bool :=
  match c with Ok _ => true | Raise _ => false end.

(** [raises_class name c]: [c] fails with an exception of class [name]. *)
Definition raises_class {A : Type} (name : string) (c : result A) : Prop :=
  exists e, c = Raise e /\ exn_class e = name.

End Py.

Import Py.

Notation "x <- c ;; k" := (Py.bind c (fun x => k))
  (at level 61, c at next level, right associativity).

(** ** binary64 scalars *)

Module F64.

Open Scope float_scope.

(** [float(z)]: round to nearest, ties to even.  (Beyond the binary64 range
    the rounding gives an infinity where CPython raises [OverflowError];
    integers that large are outside the model.) *)
Definition float_of_int (z : Z) : float :=
  SF2Prim (binary_normalize prec emax z 0 false).

(** Python's [x / y] on two floats. *)
Definition py_truediv (x y : float) : result float :=
  if y =? 0 then Raise (ZeroDivisionError "float division by zero")
  else Ok (x / y).

(** The loop of the ufunc [numpy.maximum]:
    [(in1 >= in2 || npy_isnan(in1)) ? in1 : in2]. *)
Definition np_maximum (in1 in2 : float) : float :=
  if (in2 <=? in1) || is_nan in1 then in1 else in2.

(** The two selections of NumPy's clip loop, [_NPY_MAX] and [_NPY_MIN]. *)
Definition npy_max (a b : float) : float :=
  if is_nan a || (b <? a) then a else b.

Definition npy_min (a b : float) : float :=
  if is_nan a || (a <? b) then a else b.

(** [numpy.clip(x, lo, hi)] on one element. *)
Definition np_clip (x lo hi : float) : float :=
  npy_min (npy_max x lo) hi.

(** The radius floor of [radial_wavefunction], the literal [1e-10]. *)
Definition eps : float := 0x1.b7cdfd9d7bdbbp-34.

(** [x >= 0] on one element. *)
Definition ge0 (x : float) : bool := 0 <=? x.

Definition complex : Type := float * float.

(** [complex(a) * b]: NumPy casts the real operand to [a + 0j] and runs the
    complex product loop. *)
Definition real_times_complex (a : float) (b : complex) : complex :=
  let ar := a in
  let ai := 0 in
  let '(br, bi) := b in
  (ar * br - ai * bi, ar * bi + ai * br).

(** A specification-level float that is neither a zero nor NaN. *)
Definition finite_or_infinite (s : bool) (x : spec_float) : Prop :=
  x = S754_infinity s \/ exists m e, x = S754_finite s m e.

End F64.

Import F64.

(** ** NumPy arrays *)

Module NumPy.

Record ndarray (A : Type) : Type := mk_ndarray {
  shape : list nat;
  data : list A
}.

Arguments mk_ndarray {A} shape data.

(** A unary ufunc, and a binary ufunc on two arrays of one shape. *)
Definition amap {A B : Type} (f : A -> B) (a : ndarray A) : ndarray B :=
  mk_ndarray (shape a) (map f (data a)).

Fixpoint zip_with {A B C : Type} (f : A -> B -> C) (l1 : list A) (l2 : list B)
  : list C :=
  match l1, l2 with
  | a :: l1', b :: l2' => f a b :: zip_with f l1' l2'
  | _, _ => []
  end.

Definition azip {A B C : Type} (f : A -> B -> C) (a : ndarray A) (b : ndarray B)
  : ndarray C :=
  mk_ndarray (shape a) (zip_with f (data a) (data b)).

(** [a[i, j, k]] of a three-dimensional array. *)
Definition getitem3 {A : Type} (a : ndarray A) (i j k : nat) : option A :=
  match shape a with
  | [_; n1; n2] => nth_error (data a) ((i * n1 + j) * n2 + k)
  | _ => None
  end.

Open Scope float_scope.

(** [numpy.arange(0, num)] as floats. *)
Fixpoint arange_from (start : Z) (num : nat) : list float :=
  match num with
  | O => []
  | S num' => float_of_int start :: arange_from (start + 1) num'
  end.

(** [y[-1] = stop]. *)
Fixpoint set_last (l : list float) (stop : float) : list float :=
  match l with
  | [] => []
  | [_] => [stop]
  | a :: l' => a :: set_last l' stop
  end.

(** [numpy.linspace(start, stop, num)] with the default [endpoint=True]. *)
Definition linspace (start stop : float) (num : Z) : result (list float) :=
  if (num <? 0)%Z then
    Raise (ValueError "Number of samples, %s, must be non-negative.")
  else
    let div := (num - 1)%Z in
    let delta := stop - start in
    let y := arange_from 0 (Z.to_nat num) in
    let y :=
      if (0 <? div)%Z then
        let step := delta / float_of_int div in
        if step =? 0 then
          map (fun v => v * delta) (map (fun v => v / float_of_int div) y)
        else map (fun v => v * step) y
      else map (fun v => v * delta) y in
    let y := map (fun v => v + start) y in
    Ok (if (1 <? num)%Z then set_last y stop else y).

(** [numpy.meshgrid(x, y, z, indexing='ij')]. *)
Definition meshgrid_ij (x y z : list float)
  : ndarray float * ndarray float * ndarray float :=
  let sh := [List.length x; List.length y; List.length z] in
  (mk_ndarray sh (flat_map (fun xi => flat_map (fun _ => map (fun _ => xi) z) y) x),
   mk_ndarray sh (flat_map (fun _ => flat_map (fun yj => map (fun _ => yj) z) y) x),
   mk_ndarray sh (flat_map (fun _ => flat_map (fun _ => z) y) x)).

(** [density[mask] = value]. *)
Definition setitem_mask (a : ndarray float) (mask : ndarray bool) (value : float)
  : ndarray float :=
  azip (fun d (b : bool) => if b then value else d) a mask.

End NumPy.

Import NumPy.

(** ** The library functions the program calls

  [libm_pow x k] is C's [pow(x, (double) k)]: every exponent in the program
  is a Python integer.  [sp_sph_harm m n az pol] is
  [scipy.special.sph_harm(m, n, az, pol)], a complex number. *)

Record SpecialFunctions : Type := {
  libm_exp : float -> float;
  libm_acos : float -> float;
  libm_atan2 : float -> float -> float;
  libm_pow : float -> Z -> float;
  libm_hypot : float -> float -> float;
  sp_factorial : Z -> float;
  sp_eval_genlaguerre : Z -> Z -> float -> float;
  sp_sph_harm : Z -> Z -> float -> float -> complex
}.

(** ** The program *)

Section Orbitals.

Variable sf : SpecialFunctions.

Open Scope float_scope.

(** [x ** e] for a float array element and a Python integer [e]: NumPy
    replaces the exponents 1, -1, 0 and 2 by [positive], [reciprocal],
    [ones_like] and [square], and calls [pow] otherwise. *)
Definition np_power (x : float) (e : Z) : float :=
  if (e =? 1)%Z then x
  else if (e =? -1)%Z then 1 / x
  else if (e =? 0)%Z then 1
  else if (e =? 2)%Z then x * x
  else libm_pow sf x e.

(** [abs] of a complex element. *)
Definition np_abs_complex (p : complex) : float :=
  libm_hypot sf (fst p) (snd p).

(** [scipy.special.genlaguerre(n, alpha)]: the two argument checks, then a
    polynomial object whose call evaluates [eval_genlaguerre(n, alpha, .)]. *)
Definition genlaguerre (n alpha : Z) : result (float -> float) :=
  if (alpha <=? -1)%Z then Raise (ValueError "alpha must be > -1")
  else if (n <? 0)%Z then Raise (ValueError "n must be nonnegative.")
  else Ok (sp_eval_genlaguerre sf n alpha).

(** [radial_wavefunction(n, l, r)], lines 10-20. *)
Definition radial_wavefunction (n l : Z) (r : ndarray float)
  : result (ndarray float) :=
  let r := amap (fun v => np_maximum v eps) r in
  let a0 := 1 in
  let rho := amap (fun v => 2 * v / (float_of_int n * a0)) r in
  q <- py_truediv 2 (float_of_int n * a0);;
  let norm :=
    sqrt (libm_pow sf q 3 * sp_factorial sf (n - l - 1)
          / (float_of_int (2 * n) * sp_factorial sf (n + l))) in
  L <- genlaguerre (n - l - 1) (2 * l + 1);;
  let L := amap L rho in
  Ok (azip mul
        (azip mul
           (amap (fun v => norm * v)
                 (amap (libm_exp sf) (amap (fun v => - v / 2) rho)))
           (amap (fun v => np_power v l) rho))
        L).

(** [angular_wavefunction(l, m, theta, phi)], lines 25-29: the arguments
    are passed on as [sph_harm(m, l, phi, theta)]. *)
Definition angular_wavefunction (l m : Z) (theta phi : ndarray float)
  : ndarray complex :=
  azip (fun ph th => sp_sph_harm sf m l ph th) phi theta.

(** The local variables of [compute_density] when it returns;
    [density_51] is [density] as line 51 leaves it, [density] as line 55
    does. *)
Record frame : Type := {
  v_x : list float;
  v_y : list float;
  v_z : list float;
  v_X : ndarray float;
  v_Y : ndarray float;
  v_Z : ndarray float;
  v_r : ndarray float;
  v_theta : ndarray float;
  v_phi : ndarray float;
  v_R : ndarray float;
  v_Y_ang : ndarray complex;
  v_psi : ndarray complex;
  v_density_51 : ndarray float;
  v_mask : ndarray bool;
  v_density : ndarray float
}.

(** The body of [compute_density], lines 40-55. *)
Definition compute_density_frame (n l m : Z) (grid_range : float) (grid_points : Z)
  : result frame :=
  x <- linspace (- grid_range) grid_range grid_points;;
  y <- linspace (- grid_range) grid_range grid_points;;
  z <- linspace (- grid_range) grid_range grid_points;;
  let '(X, Y, Z) := meshgrid_ij x y z in
  let r :=
    amap sqrt
         (azip add
               (azip add (amap (fun v => np_power v 2) X)
                     (amap (fun v => np_power v 2) Y))
               (amap (fun v => np_power v 2) Z)) in
  let theta :=
    amap (libm_acos sf) (amap (fun v => np_clip v (-1) 1) (azip div Z r)) in
  let phi := azip (libm_atan2 sf) Y X in
  R <- radial_wavefunction n l r;;
  let Y_ang := angular_wavefunction l m theta phi in
  let psi := azip real_times_complex R Y_ang in
  let density_51 := amap (fun v => np_power v 2) (amap np_abs_complex psi) in
  let mask := amap ge0 X in
  let density := setitem_mask density_51 mask 0 in
  Ok {| v_x := x; v_y := y; v_z := z; v_X := X; v_Y := Y; v_Z := Z;
        v_r := r; v_theta := theta; v_phi := phi; v_R := R;
        v_Y_ang := Y_ang; v_psi := psi; v_density_51 := density_51;
        v_mask := mask; v_density := density |}.

(** [compute_density(n, l, m, grid_range, grid_points)], lines 34-57. *)
Definition compute_density (n l m : Z) (grid_range : float) (grid_points : Z)
  : result (ndarray float * ndarray float * ndarray float * ndarray float) :=
  fr <- compute_density_frame n l m grid_range grid_points;;
  Ok (v_X fr, v_Y fr, v_Z fr, v_density fr).

End Orbitals.

(** ** Reference special functions

  Executable binary64 versions of the library routines, used to run the
  program on concrete inputs.  Each follows the routine's documented
  behaviour on special arguments (NaN, out-of-domain arguments, overflow)
  and approximates it elsewhere to a relative error of about [1e-12]; they
  are not bit-exact replicas of libm or SciPy. *)

Module RefLib.

Open Scope float_scope.

Definition of_nat (i : nat) : float := float_of_int (Z.of_nat i).

Definition pi : float := 0x1.921fb54442d18p+1.

Fixpoint iterate {A : Type} (k : nat) (f : A -> A) (a : A) : A :=
  match k with
  | O => a
  | S k' => iterate k' f (f a)
  end.

(** [1 + x/1 (1 + x/2 (... (1 + x/i)))], the Taylor sum of [exp]. *)
Fixpoint exp_horner (i : nat) (x acc : float) : float :=
  match i with
  | O => acc
  | S i' => exp_horner i' x (1 + x / of_nat i * acc)
  end.

(** [exp x = (exp (x / 1024)) ^ 1024]. *)
Definition exp (x : float) : float :=
  if is_nan x then nan
  else if x <? -746 then 0
  else if 710 <? x then infinity
  else iterate 10 (fun v => v * v) (exp_horner 24 (x / 1024) 1).

Fixpoint cos_horner (i : nat) (x2 acc : float) : float :=
  match i with
  | O => acc
  | S i' => cos_horner i' x2 (1 - x2 / (of_nat (2 * i - 1) * of_nat (2 * i)) * acc)
  end.

Fixpoint sin_horner (i : nat) (x2 acc : float) : float :=
  match i with
  | O => acc
  | S i' => sin_horner i' x2 (1 - x2 / (of_nat (2 * i) * of_nat (2 * i + 1)) * acc)
  end.

(** [(cos x, sin x)]: the Taylor sums at [x / 256], then eight angle
    doublings. *)
Definition cos_sin (x : float) : float * float :=
  let y := x / 256 in
  let c := cos_horner 12 (y * y) 1 in
  let s := y * sin_horner 12 (y * y) 1 in
  iterate 8 (fun cs => (fst cs * fst cs - snd cs * snd cs, 2 * snd cs * fst cs)) (c, s).

(** [1 - z2/3 + z2^2/5 - ...], so that [atan z = z * atan_horner ...]. *)
Fixpoint atan_horner (i : nat) (z2 acc : float) : float :=
  match i with
  | O => 1 - z2 * acc
  | S i' => atan_horner i' z2 (1 / of_nat (2 * i + 1) - z2 * acc)
  end.

Definition atan_halve (x : float) : float := x / (1 + sqrt (1 + x * x)).

Definition atan_small (x : float) : float :=
  let z := atan_halve (atan_halve x) in
  4 * (z * atan_horner 24 (z * z) (1 / 51)).

Definition atan (x : float) : float :=
  if is_nan x then nan
  else if 1 <? x then pi / 2 - atan_small (1 / x)
  else if x <? -1 then - (pi / 2) - atan_small (1 / x)
  else atan_small x.

Definition atan2 (y x : float) : float :=
  if is_nan x || is_nan y then nan
  else if is_infinity x && is_infinity y then
    (if get_sign y then - 1 else 1) * (if get_sign x then 3 * pi / 4 else pi / 4)
  else if 0 <? x then atan (y / x)
  else if x <? 0 then
    if get_sign y then atan (y / x) - pi else atan (y / x) + pi
  else if 0 <? y then pi / 2
  else if y <? 0 then - (pi / 2)
  else if get_sign x then (if get_sign y then - pi else pi)
  else y.

Definition acos (x : float) : float :=
  if is_nan x then nan
  else if 1 <? abs x then nan
  else atan2 (sqrt ((1 - x) * (1 + x))) x.

Fixpoint pow_pos (x : float) (p : positive) : float :=
  match p with
  | xH => x
  | xO p' => let h := pow_pos x p' in h * h
  | xI p' => let h := pow_pos x p' in h * h * x
  end.

Definition pow (x : float) (k : Z) : float :=
  match k with
  | Z0 => 1
  | Zpos p => pow_pos x p
  | Zneg p => 1 / pow_pos x p
  end.

Definition hypot (x y : float) : float :=
  if is_infinity x || is_infinity y then infinity
  else if is_nan x || is_nan y then nan
  else
    let a := abs x in
    let b := abs y in
    let hi := if a <? b then b else a in
    let lo := if a <? b then a else b in
    if hi =? 0 then 0 else hi * sqrt (1 + lo / hi * (lo / hi)).

Fixpoint factorial_nat (k : nat) : float :=
  match k with
  | O => 1
  | S k' => of_nat k * factorial_nat k'
  end.

(** [scipy.special.factorial(k)]: 0 below zero, infinity from 171 on. *)
Definition factorial (k : Z) : float :=
  if (k <? 0)%Z then 0
  else if (170 <? k)%Z then infinity
  else factorial_nat (Z.to_nat k).

(** [binom(n, k)] for integers [0 <= k <= n], by the product formula. *)
Fixpoint binom_loop (i : nat) (n k : Z) (acc : float) : float :=
  match i with
  | O => acc
  | S i' =>
      let j := (k - Z.of_nat i')%Z in
      binom_loop i' n k (acc * float_of_int (j + n - k) / float_of_int j)
  end.

Definition binom (n k : Z) : float := binom_loop (Z.to_nat k) n k 1.

Fixpoint genlaguerre_loop (i : nat) (k alpha x d p : float) : float :=
  match i with
  | O => p
  | S i' =>
      let d := - x / (k + alpha + 1) * p + k / (k + alpha + 1) * d in
      genlaguerre_loop i' (k + 1) alpha x d (d + p)
  end.

(** [scipy.special.eval_genlaguerre(n, alpha, x)] for integers [n], [alpha]:
    the three-term recurrence. *)
Definition eval_genlaguerre (n alpha : Z) (x : float) : float :=
  if (alpha <=? -1)%Z then nan
  else if is_nan x then nan
  else if (n <? 0)%Z then 0
  else if (n =? 0)%Z then 1
  else if (n =? 1)%Z then - x + float_of_int alpha + 1
  else
    let a := float_of_int alpha in
    let d := - x / (a + 1) in
    binom (n + alpha) n * genlaguerre_loop (Z.to_nat (n - 1)) 1 a x d (d + 1).

(** [P_m^m(x)] with the Condon-Shortley phase. *)
Fixpoint legendre_mm (i : nat) (s fact acc : float) : float :=
  match i with
  | O => acc
  | S i' => legendre_mm i' s (fact + 2) (acc * (- fact * s))
  end.

Fixpoint legendre_up (i : nat) (ll m x pm1 pm2 : float) : float :=
  match i with
  | O => pm1
  | S i' =>
      let p := (x * (2 * ll - 1) * pm1 - (ll + m - 1) * pm2) / (ll - m) in
      legendre_up i' (ll + 1) m x p pm1
  end.

(** The associated Legendre function [P_l^m(x)], [0 <= m <= l]. *)
Definition legendre (l m : nat) (x : float) : float :=
  let pmm := legendre_mm m (sqrt ((1 - x) * (1 + x))) 1 1 in
  match (l - m)%nat with
  | O => pmm
  | S d =>
      let pmmp1 := x * (2 * of_nat m + 1) * pmm in
      legendre_up d (of_nat m + 2) (of_nat m) x pmmp1 pmm
  end.

(** [scipy.special.sph_harm(m, n, az, pol)]: NaN when [|m| > n] or
    [n < 0]. *)
Definition sph_harm (m n : Z) (az pol : float) : complex :=
  if (n <? Z.abs m)%Z then (nan, 0)
  else if (n <? 0)%Z then (nan, 0)
  else
    let mp := Z.abs m in
    let nrm :=
      sqrt (float_of_int (2 * n + 1) / (4 * pi)
            * (factorial (n - mp) / factorial (n + mp))) in
    let p := legendre (Z.to_nat n) (Z.to_nat mp) (fst (cos_sin pol)) in
    let cs := cos_sin (float_of_int mp * az) in
    if (m <? 0)%Z then
      let sgn := if Z.even mp then 1 else - 1 in
      (sgn * nrm * p * fst cs, - (sgn * nrm * p * snd cs))
    else (nrm * p * fst cs, nrm * p * snd cs).

Definition lib : SpecialFunctions :=
  {| libm_exp := exp;
     libm_acos := acos;
     libm_atan2 := atan2;
     libm_pow := pow;
     libm_hypot := hypot;
     sp_factorial := factorial;
     sp_eval_genlaguerre := eval_genlaguerre;
     sp_sph_harm := sph_harm |}.

End RefLib.

(** ** The radial evaluator on one radius

  What lines 15-20 compute for one element [v] of [r]: every array
  operation of [radial_wavefunction] works element by element, so the
  function is the map of a scalar function over [r]
  ([radial_wavefunction_valid] below). *)

Section RadialAt.

Variable sf : SpecialFunctions.

Open Scope float_scope.

Definition radial_rho (n : Z) (v : float) : float :=
  let a0 := 1 in
  2 * np_maximum v eps / (float_of_int n * a0).

Definition radial_norm (n l : Z) : float :=
  let a0 := 1 in
  sqrt (libm_pow sf (2 / (float_of_int n * a0)) 3 * sp_factorial sf (n - l - 1)
        / (float_of_int (2 * n) * sp_factorial sf (n + l))).

Definition radial_at (n l : Z) (v : float) : float :=
  radial_norm n l * libm_exp sf (- radial_rho n v / 2)
  * np_power sf (radial_rho n v) l
  * sp_eval_genlaguerre sf (n - l - 1) (2 * l + 1) (radial_rho n v).

End RadialAt.

(** ** Valid inputs

  The invariants of section 3 of the specification on a quantum state and
  on a grid specification. *)

Module Spec.
Section Spec.

Open Scope float_scope.

Definition valid_state (n l m : Z) : Prop :=
  (1 <= n /\ 0 <= l <= n - 1 /\ - l <= m <= l)%Z.

Definition valid_grid (extent : float) (resolution : Z) : Prop :=
  (0 <? extent) = true /\ (2 <= resolution)%Z.

End Spec.
End Spec.

(** ** The program on a heap of arrays

  The same statements with NumPy's allocation made explicit: every
  assignment binds its name to a newly allocated array, and
  [density[mask] = 0] overwrites the array [density] refers to.  A
  reference is the index of its object in the heap; a computation that
  would follow a dangling or ill-typed reference yields [None].  The heap
  holds the arrays only: the floating-point error state and the warning
  registry the ufuncs also work on are the subject of [FPErr] below. *)

Module Heap.

Inductive obj : Type :=
| FloatArray (a : ndarray float)
| ComplexArray (a : ndarray complex)
| BoolArray (a : ndarray bool).

Definition heap : Type := list obj.
Definition ref : Type := nat.

Definition M (A : Type) : Type := heap -> option (result A * heap).

Definition ret {A : Type} (a : A) : M A := fun h => Some (Ok a, h).

Definition lift {A : Type} (c : result A) : M A := fun h => Some (c, h).

Definition bindM {A B : Type} (c : M A) (k : A -> M B) : M B :=
  fun h =>
    match c h with
    | Some (Ok a, h') => k a h'
    | Some (Raise e, h') => Some (Raise e, h')
    | None => None
    end.

Definition alloc (o : obj) : M ref :=
  fun h => Some (Ok (List.length h), h ++ [o]).

Definition load_float (p : ref) : M (ndarray float) :=
  fun h =>
    match nth_error h p with
    | Some (FloatArray a) => Some (Ok a, h)
    | _ => None
    end.

Definition load_complex (p : ref) : M (ndarray complex) :=
  fun h =>
    match nth_error h p with
    | Some (ComplexArray a) => Some (Ok a, h)
    | _ => None
    end.

Definition load_bool (p : ref) : M (ndarray bool) :=
  fun h =>
    match nth_error h p with
    | Some (BoolArray a) => Some (Ok a, h)
    | _ => None
    end.

Fixpoint update (p : nat) (o : obj) (h : heap) : heap :=
  match h, p with
  | [], _ => []
  | _ :: h', O => o :: h'
  | a :: h', S p' => a :: update p' o h'
  end.

Definition store (p : ref) (o : obj) : M unit :=
  fun h =>
    if (p <? List.length h)%nat then Some (Ok tt, update p o h) else None.

End Heap.

Import Heap.

Notation "x <~ c ;; k" := (Heap.bindM c (fun x => k))
  (at level 61, c at next level, right associativity).

Section OrbitalsOnHeap.

Variable sf : SpecialFunctions.

Open Scope float_scope.

Definition linspace_h (start stop : float) (num : Z) : M ref :=
  l <~ lift (linspace start stop num);;
  alloc (FloatArray (mk_ndarray [List.length l] l)).

Definition meshgrid_ij_h (px py pz : ref) : M (ref * ref * ref) :=
  x <~ load_float px;;
  y <~ load_float py;;
  z <~ load_float pz;;
  let '(X, Y, Z) := meshgrid_ij (data x) (data y) (data z) in
  pX <~ alloc (FloatArray X);;
  pY <~ alloc (FloatArray Y);;
  pZ <~ alloc (FloatArray Z);;
  ret (pX, pY, pZ).

(** [density[mask] = value], in place. *)
Definition setitem_mask_h (pa pmask : ref) (value : float) : M unit :=
  a <~ load_float pa;;
  mask <~ load_bool pmask;;
  store pa (FloatArray (setitem_mask a mask value)).

Definition radial_wavefunction_h (n l : Z) (pr : ref) : M ref :=
  r <~ load_float pr;;
  pr <~ alloc (FloatArray (amap (fun v => np_maximum v eps) r));;
  let a0 := 1 in
  r <~ load_float pr;;
  prho <~ alloc (FloatArray (amap (fun v => 2 * v / (float_of_int n * a0)) r));;
  q <~ lift (py_truediv 2 (float_of_int n * a0));;
  let norm :=
    sqrt (libm_pow sf q 3 * sp_factorial sf (n - l - 1)
          / (float_of_int (2 * n) * sp_factorial sf (n + l))) in
  L <~ lift (genlaguerre sf (n - l - 1) (2 * l + 1));;
  rho <~ load_float prho;;
  pL <~ alloc (FloatArray (amap L rho));;
  rho <~ load_float prho;;
  L <~ load_float pL;;
  alloc (FloatArray
           (azip mul
              (azip mul
                 (amap (fun v => norm * v)
                       (amap (libm_exp sf) (amap (fun v => - v / 2) rho)))
                 (amap (fun v => np_power sf v l) rho))
              L)).

Definition angular_wavefunction_h (l m : Z) (ptheta pphi : ref) : M ref :=
  theta <~ load_float ptheta;;
  phi <~ load_float pphi;;
  alloc (ComplexArray (azip (fun ph th => sp_sph_harm sf m l ph th) phi theta)).

Definition compute_density_h (n l m : Z) (grid_range : float) (grid_points : Z)
  : M (ref * ref * ref * ref) :=
  px <~ linspace_h (- grid_range) grid_range grid_points;;
  py <~ linspace_h (- grid_range) grid_range grid_points;;
  pz <~ linspace_h (- grid_range) grid_range grid_points;;
  grids <~ meshgrid_ij_h px py pz;;
  let '(pX, pY, pZ) := grids in
  X <~ load_float pX;;
  Y <~ load_float pY;;
  Z <~ load_float pZ;;
  pr <~ alloc (FloatArray
                 (amap sqrt
                    (azip add
                       (azip add (amap (fun v => np_power sf v 2) X)
                             (amap (fun v => np_power sf v 2) Y))
                       (amap (fun v => np_power sf v 2) Z))));;
  r <~ load_float pr;;
  ptheta <~ alloc (FloatArray
                     (amap (libm_acos sf)
                        (amap (fun v => np_clip v (-1) 1) (azip div Z r))));;
  pphi <~ alloc (FloatArray (azip (libm_atan2 sf) Y X));;
  pR <~ radial_wavefunction_h n l pr;;
  pY_ang <~ angular_wavefunction_h l m ptheta pphi;;
  R <~ load_float pR;;
  Y_ang <~ load_complex pY_ang;;
  ppsi <~ alloc (ComplexArray (azip real_times_complex R Y_ang));;
  psi <~ load_complex ppsi;;
  pdensity <~ alloc (FloatArray
                       (amap (fun v => np_power sf v 2)
                             (amap (np_abs_complex sf) psi)));;
  pmask <~ alloc (BoolArray (amap ge0 X));;
  _ <~ setitem_mask_h pdensity pmask 0;;
  ret (pX, pY, pZ, pdensity).

(** The arrays a returned quadruple of references designates. *)
Definition deref4 (h : heap) (p : ref * ref * ref * ref)
  : option (ndarray float * ndarray float * ndarray float * ndarray float) :=
  let '(pX, pY, pZ, pD) := p in
  match nth_error h pX, nth_error h pY, nth_error h pZ, nth_error h pD with
  | Some (FloatArray X), Some (FloatArray Y), Some (FloatArray Z),
    Some (FloatArray D) => Some (X, Y, Z, D)
  | _, _, _, _ => None
  end.

(** What a caller observes of one invocation started in heap [h]: the
    exception, or the contents of the four returned arrays. *)
Definition observe (h : heap) (n l m : Z) (grid_range : float) (grid_points : Z)
  : option (result (ndarray float * ndarray float * ndarray float * ndarray float)) :=
  match compute_density_h n l m grid_range grid_points h with
  | Some (Ok p, h') =>
      match deref4 h' p with
      | Some v => Some (Ok v)
      | None => None
      end
  | Some (Raise e, _) => Some (Raise e)
  | None => None
  end.

(** The heap an invocation started in [h] leaves. *)
Definition final_heap (h : heap) (n l m : Z) (grid_range : float) (grid_points : Z)
  : option heap :=
  match compute_density_h n l m grid_range grid_points h with
  | Some (_, h') => Some h'
  | None => None
  end.

End OrbitalsOnHeap.

(** ** The application script

  Lines 78-147: the predefined orbital sequence, the Streamlit widgets,
  the call of [compute_density], the maximum of the field and the
  isosurface level. *)

(** [list(range(start, stop))]. *)
Fixpoint range_from (start : Z) (len : nat) : list Z :=
  match len with
  | O => []
  | S len' => start :: range_from (start + 1) len'
  end.

Definition py_range (start stop : Z) : list Z :=
  range_from start (Z.to_nat (stop - start)).

(** A specification-level float that is a zero or a finite number. *)
Definition zero_or_finite (x : spec_float) : Prop :=
  (exists s, x = S754_zero s) \/ exists s m e, x = S754_finite s m e.

(** [lst.index(v)]: the position of the first element equal to [v]. *)
Fixpoint list_index (lst : list Z) (v : Z) : result nat :=
  match lst with
  | [] => Raise (ValueError "%r is not in list")
  | a :: lst' =>
      if (a =? v)%Z then Ok O
      else i <- list_index lst' v;; Ok (S i)
  end.

(** [orbital_sequence], lines 78-109. *)
Definition orbital_sequence : list (Z * Z * Z) :=
  [ (1, 0, 0);
    (2, 0, 0);
    (2, 1, -1);
    (2, 1, 0);
    (2, 1, 1);
    (3, 0, 0);
    (3, 1, -1);
    (3, 1, 0);
    (3, 1, 1);
    (3, 2, -2);
    (3, 2, -1);
    (3, 2, 0);
    (3, 2, 1);
    (3, 2, 2);
    (4, 0, 0);
    (4, 1, -1);
    (4, 1, 0);
    (4, 1, 1);
    (4, 2, -2);
    (4, 2, -1);
    (4, 2, 0);
    (4, 2, 1);
    (4, 2, 2);
    (4, 3, -3);
    (4, 3, -2);
    (4, 3, -1);
    (4, 3, 0);
    (4, 3, 1);
    (4, 3, 2);
    (4, 3, 3) ]%Z.

(** The options of the three select boxes, lines 124-127. *)
Definition n_options : list Z := py_range 1 30.

Definition l_options (n : Z) : list Z := py_range 0 n.

Definition m_options (l : Z) : list Z :=
  if (0 <? l)%Z then py_range (- l) (l + 1) else [0%Z].

(** [numpy.max(a)] of a float array: the reduction of [numpy.maximum] over
    all entries in C order, which has no identity.  (The order of the
    reduction matters only for the sign of a maximum that is zero.) *)
Definition np_max (a : ndarray float) : result float :=
  match data a with
  | [] =>
      Raise (ValueError
               "zero-size array to reduction operation maximum which has no identity")
  | d :: ds => Ok (fold_left np_maximum ds d)
  end.

(** [a.flatten()]. *)
Definition flatten {A : Type} (a : ndarray A) : ndarray A :=
  mk_ndarray [List.length (data a)] (data a).

(** What the widgets of lines 124-132 return in one run of the script. *)
Record widgets : Type := {
  w_n : Z;
  w_l : Z;
  w_m : Z;
  w_grid_points : Z;
  w_grid_range : Z;
  w_iso_percent : Z
}.

(** A select box returns one of its options, a slider an integer between
    its bounds. *)
Definition offered (w : widgets) : Prop :=
  In (w_n w) n_options
  /\ In (w_l w) (l_options (w_n w))
  /\ In (w_m w) (m_options (w_l w))
  /\ (30 <= w_grid_points w <= 100)%Z
  /\ (10 <= w_grid_range w <= 5000)%Z
  /\ (1 <= w_iso_percent w <= 100)%Z.

(** The data handed to [go.Isosurface], lines 141-147. *)
Record isosurface : Type := {
  iso_x : ndarray float;
  iso_y : ndarray float;
  iso_z : ndarray float;
  iso_value : ndarray float;
  iso_isomin : float;
  iso_isomax : float
}.

Section Script.

Variable sf : SpecialFunctions.

Open Scope float_scope.

(** Lines 124-147.  [grid_range] is a Python integer: [linspace] converts
    [-grid_range] and [grid_range] to binary64, and for a non-zero integer
    the conversion of the opposite is the opposite of the conversion
    ([Order64.float_of_int_opp] below).  [iso_percent / 100] divides two small
    integers, which CPython does by converting both to binary64. *)
Definition script (w : widgets) : result isosurface :=
  let n := w_n w in
  let l := w_l w in
  _ <- list_index (m_options l) 0;;
  let m := w_m w in
  let grid_points := w_grid_points w in
  let grid_range := w_grid_range w in
  let iso_percent := w_iso_percent w in
  r <- compute_density sf n l m (float_of_int grid_range) grid_points;;
  let '(X, Y, Z, density) := r in
  max_density <- np_max density;;
  let isovalue := float_of_int iso_percent / float_of_int 100 * max_density in
  Ok {| iso_x := flatten X; iso_y := flatten Y; iso_z := flatten Z;
        iso_value := flatten density;
        iso_isomin := isovalue; iso_isomax := max_density |}.

End Script.

(** ** Floating-point errors and warnings

  NumPy runs the loop of a ufunc with the IEEE 754 status flags cleared
  and reads them when the loop ends.  Each flag that is raised is treated
  as the thread's error state says ([numpy.seterr]): ignored, reported
  with [warnings.warn] as a [RuntimeWarning], or turned into a
  [FloatingPointError]; the flags are looked at in the order divide by
  zero, overflow, invalid.  A warning goes through Python's warning
  filters and through the [__warningregistry__] of the module whose line
  is running.

  The division ufunc is modelled, as [Z / r] at line 45 calls it.  The
  underflow flag, which the error state ignores unless it is changed, the
  treatments ['call'], ['print'] and ['log'], the filter actions
  ['module'] and ['once'], and the reset of a registry after a change of
  the filters are outside the model. *)

Module FPErr.

Open Scope float_scope.

Inductive treatment : Type := t_ignore | t_warn | t_raise.

(** [numpy.geterr()], without its [under] entry. *)
Record errstate : Type := {
  err_divide : treatment;
  err_over : treatment;
  err_invalid : treatment
}.

(** The error state a thread starts with. *)
Definition default_errstate : errstate :=
  {| err_divide := t_warn; err_over := t_warn; err_invalid := t_warn |}.

Record fpflags : Type := {
  fe_divbyzero : bool;
  fe_overflow : bool;
  fe_invalid : bool
}.

(** The flags one binary64 division [x / y] raises: invalid for [0 / 0]
    and [inf / inf], divide by zero for a finite non-zero [x] over 0,
    overflow when the quotient of two finite numbers rounds to an
    infinity. *)
Definition div_flags (x y : float) : fpflags :=
  {| fe_divbyzero := is_finite x && negb (is_zero x) && is_zero y;
     fe_overflow :=
       is_finite x && is_finite y && negb (is_zero y) && is_infinity (x / y);
     fe_invalid := (is_zero x && is_zero y) || (is_infinity x && is_infinity y) |}.

(** The flags that are raised when the loop over two arrays ends. *)
Definition divide_flags (a b : ndarray float) : fpflags :=
  let fl := zip_with div_flags (data a) (data b) in
  {| fe_divbyzero := existsb fe_divbyzero fl;
     fe_overflow := existsb fe_overflow fl;
     fe_invalid := existsb fe_invalid fl |}.

(** What the warning filters answer for a [RuntimeWarning] of the module;
    with the filters Python starts with it is [f_default]. *)
Inductive filter_action : Type :=
| f_default | f_error | f_ignore | f_always.

(** The state [warnings.warn] works on: the filters' answer, the module's
    [__warningregistry__] (keys: text and line number, the category being
    [RuntimeWarning] throughout), and the warnings shown so far on
    standard error. *)
Record warnings : Type := {
  w_filter : filter_action;
  w_registry : list (string * nat);
  w_shown : list (string * nat)
}.

Definition key_eqb (k1 k2 : string * nat) : bool :=
  String.eqb (fst k1) (fst k2) && Nat.eqb (snd k1) (snd k2).

Definition registered (k : string * nat) (reg : list (string * nat)) : bool :=
  existsb (key_eqb k) reg.

(** What a call can end in: a value, or an exception of a class with its
    message. *)
Inductive outcome (A : Type) : Type :=
| Returned (a : A)
| Raised (class message : string).

Arguments Returned {A} a.
Arguments Raised {A} class message.

(** [warnings.warn_explicit] for a [RuntimeWarning] with message [text]
    issued at line [lineno]: nothing happens when the key is in the
    registry; otherwise the filters decide. *)
Definition warn_explicit (text : string) (lineno : nat) (w : warnings)
  : outcome unit * warnings :=
  let key := (text, lineno) in
  if registered key (w_registry w) then (Returned tt, w)
  else
    match w_filter w with
    | f_error => (Raised "RuntimeWarning" text, w)
    | f_ignore => (Returned tt, w)
    | f_always =>
        (Returned tt,
         {| w_filter := w_filter w; w_registry := w_registry w;
            w_shown := w_shown w ++ [key] |})
    | f_default =>
        (Returned tt,
         {| w_filter := w_filter w; w_registry := w_registry w ++ [key];
            w_shown := w_shown w ++ [key] |})
    end.

(** One raised flag under its treatment. *)
Definition handle (t : treatment) (flag : bool) (text : string) (lineno : nat)
  (w : warnings) : outcome unit * warnings :=
  if flag then
    match t with
    | t_ignore => (Returned tt, w)
    | t_warn => warn_explicit text lineno w
    | t_raise => (Raised "FloatingPointError" text, w)
    end
  else (Returned tt, w).

(** The flags of a [divide] loop that ran at line [lineno]. *)
Definition handle_fperr (st : errstate) (fl : fpflags) (lineno : nat)
  (w : warnings) : outcome unit * warnings :=
  match handle (err_divide st) (fe_divbyzero fl)
          "divide by zero encountered in divide" lineno w with
  | (Raised c msg, w1) => (Raised c msg, w1)
  | (Returned _, w1) =>
      match handle (err_over st) (fe_overflow fl)
              "overflow encountered in divide" lineno w1 with
      | (Raised c msg, w2) => (Raised c msg, w2)
      | (Returned _, w2) =>
          handle (err_invalid st) (fe_invalid fl)
            "invalid value encountered in divide" lineno w2
      end
  end.

(** [a / b] on two float arrays, evaluated at line [lineno]. *)
Definition np_divide (st : errstate) (w : warnings) (lineno : nat)
  (a b : ndarray float) : outcome (ndarray float) * warnings :=
  match handle_fperr st (divide_flags a b) lineno w with
  | (Raised c msg, w') => (Raised c msg, w')
  | (Returned _, w') => (Returned (azip div a b), w')
  end.

End FPErr.

(** * Properties *)

(** ** binary64 facts *)

Module Binary64.

Lemma iter_pos_iter : forall (A : Type) (f : A -> A) (p : positive) (x : A),
  iter_pos f p x = Pos.iter f x p.
Proof.
  intros A f p; induction p as [p IH | p IH | ]; intros x; simpl.
  - rewrite !IH. rewrite <- !Pos.iter_swap. reflexivity.
  - rewrite !IH. reflexivity.
  - reflexivity.
Qed.

Lemma shr_1_m : forall mrs, (0 <= shr_m mrs)%Z ->
  shr_m (shr_1 mrs) = Z.div2 (shr_m mrs).
Proof.
  intros [m r s] H; simpl in *.
  destruct m as [ | [p | p | ] | p]; simpl; try reflexivity; lia.
Qed.

Lemma shr_iter_m : forall (k : positive) mrs, (0 <= shr_m mrs)%Z ->
  shr_m (iter_pos shr_1 k mrs) = Z.shiftr (shr_m mrs) (Z.pos k).
Proof.
  intros k mrs H. rewrite iter_pos_iter.
  induction k as [ | k IH] using Pos.peano_ind.
  - simpl Pos.iter. rewrite shr_1_m by assumption.
    rewrite Z.div2_spec. reflexivity.
  - rewrite Pos.iter_succ, shr_1_m.
    + rewrite IH, Z.div2_spec, Z.shiftr_shiftr by lia.
      f_equal. lia.
    + rewrite IH. apply Z.shiftr_nonneg. assumption.
Qed.

Lemma digits2_log2 : forall p : positive,
  Z.pos (digits2_pos p) = (Z.log2 (Z.pos p) + 1)%Z.
Proof.
  assert (S : forall q, digits2_pos q = Pos.size q).
  { induction q; simpl; congruence. }
  intros [p | p | ]; simpl; rewrite ?S; lia.
Qed.

Lemma Zdigits2_log2 : forall m : Z, (0 < m)%Z ->
  Zdigits2 m = (Z.log2 m + 1)%Z.
Proof.
  intros [ | p | p] H; try lia. simpl Zdigits2. apply digits2_log2.
Qed.


Lemma shr_record_of_loc_m : forall m l, shr_m (shr_record_of_loc m l) = m.
Proof. intros m [ | [ | | ]]; reflexivity. Qed.

Lemma shr_fexp_normal : forall m e l,
  (0 < m)%Z -> (53 <= Zdigits2 m)%Z -> (-1074 <= e)%Z ->
  exists mrs,
    shr_fexp prec emax m e l = (mrs, (e + (Zdigits2 m - 53))%Z)
    /\ (0 < shr_m mrs)%Z /\ Zdigits2 (shr_m mrs) = 53%Z.
Proof.
  intros m e l Hm Hd He.
  unfold shr_fexp, fexp, emin, prec, emax.
  replace (Z.max (Zdigits2 m + e - 53) (3 - 1024 - 53) - e)%Z
    with (Zdigits2 m - 53)%Z by lia.
  unfold shr.
  destruct (Zdigits2 m - 53)%Z as [ | k | k] eqn:Hk; try lia.
  - exists (shr_record_of_loc m l).
    rewrite shr_record_of_loc_m. repeat split; try assumption.
    + f_equal. lia.
    + lia.
  - exists (iter_pos shr_1 k (shr_record_of_loc m l)).
    rewrite shr_iter_m; rewrite shr_record_of_loc_m; try lia.
    assert (Hl : Z.log2 (Z.shiftr m (Z.pos k)) = 52%Z).
    { rewrite Z.log2_shiftr by assumption.
      rewrite Zdigits2_log2 in Hk by assumption. lia. }
    assert (Hp : (0 < Z.shiftr m (Z.pos k))%Z).
    { destruct (Z.lt_ge_cases 0 (Z.shiftr m (Z.pos k))) as [H | H]; [exact H | ].
      apply Z.log2_nonpos in H. lia. }
    repeat split; try assumption.
    rewrite Zdigits2_log2 by assumption. lia.
Qed.

Lemma round_nearest_even_bounds : forall mrs, (0 < shr_m mrs)%Z ->
  let m := round_nearest_even (shr_m mrs) (loc_of_shr_record mrs) in
  (shr_m mrs <= m)%Z.
Proof.
  intros [m r s] H; simpl in *.
  destruct r, s; simpl; try lia.
  destruct (Z.even m); lia.
Qed.

Lemma binary_round_aux_normal : forall s m e,
  (0 < m)%Z -> (53 <= Zdigits2 m)%Z -> (-1074 <= e)%Z ->
  valid_binary (binary_round_aux prec emax s m e loc_Exact) = true
  /\ finite_or_infinite s (binary_round_aux prec emax s m e loc_Exact).
Proof.
  intros s m e Hm Hd He. unfold binary_round_aux.
  destruct (shr_fexp_normal loc_Exact Hm Hd He) as (mrs & -> & Hp & Hdig).
  pose proof (round_nearest_even_bounds mrs Hp) as Hr. cbv zeta in Hr.
  set (m2 := round_nearest_even (shr_m mrs) (loc_of_shr_record mrs)) in *.
  assert (Hm2 : (0 < m2)%Z) by lia.
  assert (Hd2 : (53 <= Zdigits2 m2)%Z).
  { rewrite Zdigits2_log2 by assumption.
    rewrite Zdigits2_log2 in Hdig by assumption.
    pose proof (Z.log2_le_mono _ _ Hr). lia. }
  assert (He2 : (-1074 <= e + (Zdigits2 m - 53))%Z) by lia.
  destruct (shr_fexp_normal loc_Exact Hm2 Hd2 He2) as (mrs2 & -> & Hp2 & Hdig2).
  destruct (shr_m mrs2) as [ | mf | mf] eqn:Hmf; try lia.
  set (e2 := (e + (Zdigits2 m - 53) + (Zdigits2 m2 - 53))%Z) in *.
  destruct (e2 <=? emax - prec)%Z eqn:Hle.
  - split.
    + simpl. unfold bounded, canonical_mantissa. rewrite Hle.
      simpl in Hdig2. rewrite Hdig2.
      unfold fexp, emin, prec, emax.
      rewrite andb_true_r. apply Z.eqb_eq. subst e2. lia.
    + right. eauto.
  - split; [reflexivity | left; reflexivity].
Qed.

Lemma digits2_shl : forall p k,
  digits2_pos (Pos.iter xO p k) = (digits2_pos p + k)%positive.
Proof.
  intros p k. induction k as [ | k IH] using Pos.peano_ind.
  - simpl. lia.
  - rewrite Pos.iter_succ. simpl. rewrite IH. lia.
Qed.

Lemma binary_round_int : forall s p,
  valid_binary (binary_round prec emax s p 0) = true
  /\ finite_or_infinite s (binary_round prec emax s p 0).
Proof.
  intros s p. unfold binary_round, shl_align.
  assert (Hf : fexp prec emax (Z.pos (digits2_pos p) + 0)
               = (Z.pos (digits2_pos p) - 53)%Z).
  { unfold fexp, emin, prec, emax. lia. }
  rewrite Hf.
  destruct (Z.pos (digits2_pos p) - 53 - 0)%Z as [ | k | k] eqn:Hk.
  - apply binary_round_aux_normal; cbn [Zdigits2]; lia.
  - apply binary_round_aux_normal; cbn [Zdigits2]; lia.
  - apply binary_round_aux_normal; cbn [Zdigits2]; try lia.
    rewrite digits2_shl. lia.
Qed.

Lemma Prim2SF_float_of_int : forall z, z <> 0%Z ->
  finite_or_infinite (z <? 0)%Z (Prim2SF (float_of_int z)).
Proof.
  intros z Hz. unfold float_of_int, binary_normalize.
  destruct z as [ | p | p]; try congruence.
  - destruct (binary_round_int false p) as [Hv Hf].
    rewrite Prim2SF_SF2Prim by exact Hv. exact Hf.
  - destruct (binary_round_int true p) as [Hv Hf].
    rewrite Prim2SF_SF2Prim by exact Hv. exact Hf.
Qed.

Lemma float_of_int_nonzero : forall z, z <> 0%Z ->
  (float_of_int z =? 0)%float = false.
Proof.
  intros z Hz. rewrite FloatAxioms.eqb_spec.
  destruct (Prim2SF_float_of_int Hz) as [-> | (m & e & ->)];
    destruct (z <? 0)%Z; reflexivity.
Qed.

(** A positive integer times infinity is infinity. *)
Lemma float_of_int_mul_infinity : forall z, (0 < z)%Z ->
  (float_of_int z * infinity)%float = infinity.
Proof.
  intros z Hz. apply Prim2SF_inj. rewrite mul_spec.
  assert (Hn : z <> 0%Z) by lia.
  destruct (Z.ltb_spec z 0) as [ | _]; [lia | ].
  pose proof (Prim2SF_float_of_int Hn) as H.
  destruct (Z.ltb_spec z 0) as [ | _]; [lia | ].
  destruct H as [-> | (m & e & ->)]; reflexivity.
Qed.

(** Whatever [x] is, [x * infinity / infinity] is NaN. *)
Lemma mul_infinity_div_infinity : forall x : float,
  (x * infinity / infinity)%float = nan.
Proof.
  intros x. apply Prim2SF_inj. rewrite div_spec, mul_spec.
  change (Prim2SF infinity) with (S754_infinity false).
  destruct (Prim2SF x) as [s | s | | s m e]; try destruct s; reflexivity.
Qed.

Lemma sub_nan_l : forall x : float, (nan - x)%float = nan.
Proof.
  intros x. apply Prim2SF_inj. rewrite sub_spec.
  change (Prim2SF nan) with S754_nan. reflexivity.
Qed.

Lemma add_nan_l : forall x : float, (nan + x)%float = nan.
Proof.
  intros x. apply Prim2SF_inj. rewrite add_spec.
  change (Prim2SF nan) with S754_nan. reflexivity.
Qed.

Lemma mul_one_r : forall x : float, (x * 1)%float = x.
Proof.
  intros x. apply Prim2SF_inj. rewrite mul_spec.
  pose proof (Prim2SF_valid x) as Hv.
  change (Prim2SF 1) with (S754_finite false 4503599627370496 (-52)).
  destruct (Prim2SF x) as [s | s | | s m e];
    try (destruct s; reflexivity); try reflexivity.
  cbn [valid_binary] in Hv. unfold bounded, canonical_mantissa in Hv.
  apply andb_prop in Hv. destruct Hv as [Hc Hb].
  apply Z.eqb_eq in Hc.
  unfold SF64mul, SFmul.
  replace (m * 4503599627370496)%positive with (Pos.iter xO m 52)
    by (rewrite Pos.mul_comm; reflexivity).
  unfold binary_round_aux, shr_fexp.
  cbn [Zdigits2]. rewrite digits2_shl.
  replace (fexp prec emax (Z.pos (digits2_pos m + 52) + (e + -52)) - (e + -52))%Z
    with 52%Z
    by (replace (Z.pos (digits2_pos m + 52) + (e + -52))%Z
          with (Z.pos (digits2_pos m) + e)%Z by lia; rewrite Hc; lia).
  unfold shr.
  change (iter_pos shr_1 52 (shr_record_of_loc (Z.pos (Pos.iter xO m 52)) loc_Exact))
    with {| shr_m := Z.pos m; shr_r := false; shr_s := false |}.
  cbn [shr_m loc_of_shr_record round_nearest_even Zdigits2 shr_record_of_loc].
  replace (e + -52 + 52)%Z with e by lia.
  rewrite Hc. rewrite Z.sub_diag. cbn [shr_m].
  rewrite Hb. destruct s; reflexivity.
Qed.


Lemma mul_nan_l : forall x : float, (nan * x)%float = nan.
Proof.
  intros x. apply Prim2SF_inj. rewrite mul_spec.
  change (Prim2SF nan) with S754_nan. reflexivity.
Qed.

(** A square is never negative: it is NaN or at least zero. *)
Lemma square_sign : forall x : float,
  is_nan (x * x) = true \/ (0 <=? x * x)%float = true.
Proof.
  intros x. unfold is_nan.
  rewrite FloatAxioms.eqb_spec, leb_spec, mul_spec.
  change (Prim2SF 0) with (S754_zero false).
  destruct (Prim2SF x) as [s | s | | s m e].
  - right. destruct s; reflexivity.
  - right. destruct s; reflexivity.
  - left. reflexivity.
  - unfold SF64mul, SFmul, binary_round_aux. rewrite xorb_nilpotent.
    destruct (shr_fexp prec emax (Z.pos (m * m)) (e + e) loc_Exact) as [mrs1 e1].
    destruct (shr_fexp prec emax
                (round_nearest_even (shr_m mrs1) (loc_of_shr_record mrs1))
                e1 loc_Exact) as [mrs2 e2].
    destruct (shr_m mrs2) as [ | mf | mf].
    + right. reflexivity.
    + right. destruct (e2 <=? emax - prec)%Z; reflexivity.
    + left. reflexivity.
Qed.

Lemma eqb_zero_cases : forall x : float,
  (x =? 0)%float = true -> x = 0%float \/ x = (-0)%float.
Proof.
  intros x H. rewrite FloatAxioms.eqb_spec in H.
  change (Prim2SF 0) with (S754_zero false) in H.
  rewrite <- (SF2Prim_Prim2SF x).
  destruct (Prim2SF x) as [s | s | | s m e].
  - destruct s; [right | left]; reflexivity.
  - destruct s; discriminate H.
  - discriminate H.
  - destruct s; discriminate H.
Qed.

End Binary64.

(** ** Arrays *)

Section ArrayLemmas.

Variables A B C D : Type.

Lemma zip_with_map_same : forall (f : B -> C -> D) (g : A -> B) (h : A -> C) l,
  zip_with f (map g l) (map h l) = map (fun a => f (g a) (h a)) l.
Proof.
  intros f g h l; induction l as [ | a l IH]; simpl; congruence.
Qed.

Lemma amap_amap : forall (f : B -> C) (g : A -> B) (a : ndarray A),
  amap f (amap g a) = amap (fun v => f (g v)) a.
Proof.
  intros f g [sh d]. unfold amap; simpl. rewrite map_map. reflexivity.
Qed.

Lemma azip_amap_same : forall (f : B -> C -> D) (g : A -> B) (h : A -> C) a,
  azip f (amap g a) (amap h a) = amap (fun v => f (g v) (h v)) a.
Proof.
  intros f g h [sh d]. unfold azip, amap; simpl.
  rewrite zip_with_map_same. reflexivity.
Qed.

End ArrayLemmas.

Lemma amap_ext : forall (A B : Type) (f g : A -> B) (a : ndarray A),
(forall v, f v = g v) -> amap f a = amap g a.
Proof.
intros A B f g [sh d] H. unfold amap; simpl. f_equal.
apply map_ext. exact H.
Qed.

Section ListLemmas.

Variables A B C : Type.

Lemma nth_error_zip_with_match : forall (f : A -> B -> C) l1 l2 i,
  nth_error (zip_with f l1 l2) i
  = match nth_error l1 i, nth_error l2 i with
    | Some a, Some b => Some (f a b)
    | _, _ => None
    end.
Proof.
  intros f l1; induction l1 as [ | a1 l1 IH]; intros [ | b1 l2] [ | i];
    simpl; try reflexivity.
  - destruct (nth_error l1 i); reflexivity.
  - apply IH.
Qed.

Lemma flat_map_uniform_length : forall (f : A -> list B) (n : nat) (l : list A),
  (forall a, List.length (f a) = n) ->
  List.length (flat_map f l) = (List.length l * n)%nat.
Proof.
  intros f n l H; induction l as [ | a l IH]; simpl; [reflexivity | ].
  rewrite length_app, H, IH. reflexivity.
Qed.

Lemma nth_error_flat_map_uniform :
  forall (f : A -> list B) (n : nat) (l : list A) (i j : nat) (a : A),
  (forall a', List.length (f a') = n) ->
  nth_error l i = Some a -> (j < n)%nat ->
  nth_error (flat_map f l) (i * n + j) = nth_error (f a) j.
Proof.
  intros f n l; induction l as [ | a0 l IH]; intros [ | i] j a H Hi Hj;
    simpl in Hi; try discriminate.
  - injection Hi as ->. simpl. apply nth_error_app1. rewrite H. exact Hj.
  - cbn [flat_map]. rewrite nth_error_app2 by (rewrite H; simpl; lia).
    rewrite H. replace (S i * n + j - n)%nat with (i * n + j)%nat by (simpl; lia).
    apply IH; assumption.
Qed.

End ListLemmas.

Lemma zip_with_length_min : forall (A B C : Type) (f : A -> B -> C) l1 l2,
List.length (zip_with f l1 l2) = Nat.min (List.length l1) (List.length l2).
Proof.
intros A B C f l1; induction l1 as [ | a l1 IH]; intros [ | b l2];
  simpl; try reflexivity.
f_equal. apply IH.
Qed.

Lemma in_zip_with : forall (A B C : Type) (f : A -> B -> C) l1 l2 c,
In c (zip_with f l1 l2) -> exists a b, In a l1 /\ In b l2 /\ c = f a b.
Proof.
intros A B C f l1; induction l1 as [ | a l1 IH]; intros [ | b l2] c H;
  simpl in H; try contradiction.
destruct H as [<- | H].
- exists a, b. simpl. auto.
- destruct (IH _ _ H) as (a' & b' & Ha & Hb & ->).
  exists a', b'. simpl. auto.
Qed.

(** ** The radial evaluator *)

Section Radial.

Variable sf : SpecialFunctions.

Lemma genlaguerre_valid : forall n l : Z, (1 <= n)%Z -> (0 <= l <= n - 1)%Z ->
  genlaguerre sf (n - l - 1) (2 * l + 1)
  = Ok (sp_eval_genlaguerre sf (n - l - 1) (2 * l + 1)).
Proof.
  intros n l Hn Hl. unfold genlaguerre.
  destruct (Z.leb_spec (2 * l + 1) (-1)); [lia | ].
  destruct (Z.ltb_spec (n - l - 1) 0); [lia | ].
  reflexivity.
Qed.

Lemma py_truediv_n : forall n : Z, n <> 0%Z ->
  py_truediv 2 (float_of_int n * 1) = Ok (2 / float_of_int n)%float.
Proof.
  intros n Hn. unfold py_truediv.
  rewrite Binary64.mul_one_r, Binary64.float_of_int_nonzero by assumption.
  reflexivity.
Qed.

Lemma radial_wavefunction_valid : forall (n l : Z) (r : ndarray float),
  (1 <= n)%Z -> (0 <= l <= n - 1)%Z ->
  radial_wavefunction sf n l r = Ok (amap (radial_at sf n l) r).
Proof.
  intros n l r Hn Hl. unfold radial_wavefunction. cbv zeta.
  rewrite py_truediv_n by lia. cbn [bind].
  rewrite genlaguerre_valid by assumption. cbn [bind].
  f_equal.
  rewrite !amap_amap, !azip_amap_same.
  apply amap_ext. intros v.
  unfold radial_at, radial_norm, radial_rho. cbv zeta.
  rewrite !Binary64.mul_one_r. reflexivity.
Qed.

End Radial.

(** ** The grid *)

Lemma set_last_length : forall l stop, List.length (set_last l stop) = List.length l.
Proof.
induction l as [ | a [ | b l] IH]; intros stop; try reflexivity.
change (S (List.length (set_last (b :: l) stop)) = S (List.length (b :: l))).
rewrite IH. reflexivity.
Qed.

Lemma arange_from_length : forall num start,
List.length (arange_from start num) = num.
Proof. induction num as [ | num IH]; intros start; simpl; congruence. Qed.

Lemma linspace_negative : forall start stop num, (num < 0)%Z ->
linspace start stop num
= Raise (ValueError "Number of samples, %s, must be non-negative.").
Proof.
intros start stop num H. unfold linspace.
destruct (Z.ltb_spec num 0); [reflexivity | lia].
Qed.

Lemma linspace_ok : forall start stop num, (0 <= num)%Z ->
exists x, linspace start stop num = Ok x /\ List.length x = Z.to_nat num.
Proof.
intros start stop num H. unfold linspace.
destruct (Z.ltb_spec num 0); [lia | ].
eexists; split; [reflexivity | ].
repeat match goal with
       | |- context [if ?c then _ else _] => destruct c
       end;
  rewrite ?set_last_length, ?length_map; apply arange_from_length.
Qed.

Lemma linspace_inv : forall start stop num x,
linspace start stop num = Ok x -> List.length x = Z.to_nat num /\ (0 <= num)%Z.
Proof.
intros start stop num x H.
destruct (Z.ltb_spec num 0) as [Hn | Hn].
- rewrite linspace_negative in H by assumption. discriminate.
- destruct (linspace_ok start stop Hn) as (x' & E & L).
  rewrite E in H. split; [congruence | assumption].
Qed.

Lemma meshgrid_ij_length : forall x y z X Y Z,
meshgrid_ij x y z = (X, Y, Z) ->
let sh := [List.length x; List.length y; List.length z] in
let N := (List.length x * (List.length y * List.length z))%nat in
shape X = sh /\ shape Y = sh /\ shape Z = sh
/\ List.length (data X) = N /\ List.length (data Y) = N
/\ List.length (data Z) = N.
Proof.
intros x y z X Y Z H. unfold meshgrid_ij in H.
injection H as <- <- <-. cbn [shape data].
repeat split;
  apply flat_map_uniform_length; intros a;
  apply flat_map_uniform_length; intros b; try reflexivity;
  apply length_map.
Qed.

Lemma meshgrid_ij_nth : forall x y z X Y Z i j q xi yj zq,
meshgrid_ij x y z = (X, Y, Z) ->
nth_error x i = Some xi -> nth_error y j = Some yj -> nth_error z q = Some zq ->
getitem3 X i j q = Some xi /\ getitem3 Y i j q = Some yj
/\ getitem3 Z i j q = Some zq.
Proof.
intros x y z X Y Z i j q xi yj zq H Hi Hj Hq.
unfold meshgrid_ij in H. injection H as <- <- <-.
unfold getitem3; cbn [shape data].
assert (Lq : (q < List.length z)%nat) by (apply nth_error_Some; congruence).
assert (Lj : (j < List.length y)%nat) by (apply nth_error_Some; congruence).
replace ((i * List.length y + j) * List.length z + q)%nat
  with (i * (List.length y * List.length z) + (j * List.length z + q))%nat by lia.
assert (Ljq : (j * List.length z + q < List.length y * List.length z)%nat) by nia.
repeat split.
- rewrite nth_error_flat_map_uniform with (a := xi); try assumption.
  + rewrite nth_error_flat_map_uniform with (a := yj); try assumption.
    * rewrite nth_error_map, Hq. reflexivity.
    * intros a; apply length_map.
  + intros a; apply flat_map_uniform_length; intros b; apply length_map.
- rewrite nth_error_flat_map_uniform with (a := xi); try assumption.
  + rewrite nth_error_flat_map_uniform with (a := yj); try assumption.
    * rewrite nth_error_map, Hq. reflexivity.
    * intros a; apply length_map.
  + intros a; apply flat_map_uniform_length; intros b; apply length_map.
- rewrite nth_error_flat_map_uniform with (a := xi); try assumption.
  + rewrite nth_error_flat_map_uniform with (a := yj); try assumption.
    reflexivity.
  + intros a; apply flat_map_uniform_length; intros b; reflexivity.
Qed.

(** ** The density field *)

Section Density.

Variable sf : SpecialFunctions.

Lemma radial_wavefunction_invalid_l : forall (n l : Z) (r : ndarray float),
  (1 <= n)%Z ->
  ((l < 0)%Z ->
   radial_wavefunction sf n l r = Raise (ValueError "alpha must be > -1"))
  /\ ((n - 1 < l)%Z ->
      radial_wavefunction sf n l r = Raise (ValueError "n must be nonnegative.")).
Proof.
  intros n l r Hn. unfold radial_wavefunction. cbv zeta.
  rewrite py_truediv_n by lia. cbn [bind]. unfold genlaguerre.
  split; intros Hl.
  - destruct (Z.leb_spec (2 * l + 1) (-1)); [reflexivity | lia].
  - destruct (Z.leb_spec (2 * l + 1) (-1)); [lia | ].
    destruct (Z.ltb_spec (n - l - 1) 0); [reflexivity | lia].
Qed.

Lemma radial_wavefunction_zero_n : forall (l : Z) (r : ndarray float),
  radial_wavefunction sf 0 l r = Raise (ZeroDivisionError "float division by zero").
Proof. intros l r. reflexivity. Qed.

Lemma radial_wavefunction_length : forall n l r R,
  radial_wavefunction sf n l r = Ok R ->
  shape R = shape r /\ List.length (data R) = List.length (data r).
Proof.
  intros n l r R H. unfold radial_wavefunction in H. cbv zeta in H.
  destruct (py_truediv 2 (float_of_int n * 1)); [ | discriminate].
  cbn [bind] in H.
  destruct (genlaguerre sf (n - l - 1) (2 * l + 1)); [ | discriminate].
  cbn [bind] in H. injection H as <-. cbn [azip amap shape data].
  split; [reflexivity | ].
  rewrite !zip_with_length_min, !length_map. lia.
Qed.

(** What each local of [compute_density] holds when the function returns. *)
Lemma compute_density_frame_inv : forall n l m e k fr,
  compute_density_frame sf n l m e k = Ok fr ->
  linspace (- e) e k = Ok (v_x fr)
  /\ v_y fr = v_x fr /\ v_z fr = v_x fr
  /\ meshgrid_ij (v_x fr) (v_x fr) (v_x fr) = (v_X fr, v_Y fr, v_Z fr)
  /\ v_r fr
     = amap sqrt
         (azip add
            (azip add (amap (fun v => v * v)%float (v_X fr))
                  (amap (fun v => v * v)%float (v_Y fr)))
            (amap (fun v => v * v)%float (v_Z fr)))
  /\ v_theta fr
     = amap (libm_acos sf)
         (amap (fun v => np_clip v (-1) 1) (azip div (v_Z fr) (v_r fr)))
  /\ v_phi fr = azip (libm_atan2 sf) (v_Y fr) (v_X fr)
  /\ radial_wavefunction sf n l (v_r fr) = Ok (v_R fr)
  /\ v_Y_ang fr = angular_wavefunction sf l m (v_theta fr) (v_phi fr)
  /\ v_psi fr = azip real_times_complex (v_R fr) (v_Y_ang fr)
  /\ v_density_51 fr
     = amap (fun v => v * v)%float (amap (np_abs_complex sf) (v_psi fr))
  /\ v_mask fr = amap ge0 (v_X fr)
  /\ v_density fr = setitem_mask (v_density_51 fr) (v_mask fr) 0.
Proof.
  intros n l m e k fr H. unfold compute_density_frame in H.
  destruct (linspace (- e) e k) as [x | ex] eqn:E; [ | discriminate].
  cbn [bind] in H.
  destruct (meshgrid_ij x x x) as [[X Y] Z] eqn:EM.
  match type of H with
  | context [radial_wavefunction sf n l ?r] =>
      destruct (radial_wavefunction sf n l r) as [R | ex] eqn:ER;
      [ | discriminate]
  end.
  cbn [bind] in H. injection H as <-. cbn.
  repeat split; assumption.
Qed.

Lemma compute_density_frame_ok : forall n l m e k,
  (1 <= n)%Z -> (0 <= l <= n - 1)%Z -> (0 <= k)%Z ->
  exists fr, compute_density_frame sf n l m e k = Ok fr.
Proof.
  intros n l m e k Hn Hl Hk. unfold compute_density_frame.
  destruct (linspace_ok (- e) e Hk) as (x & -> & _). cbn [bind].
  destruct (meshgrid_ij x x x) as [[X Y] Z].
  rewrite radial_wavefunction_valid by assumption. cbn [bind].
  eexists. reflexivity.
Qed.

Lemma compute_density_frame_negative : forall n l m e k, (k < 0)%Z ->
  compute_density_frame sf n l m e k
  = Raise (ValueError "Number of samples, %s, must be non-negative.").
Proof.
  intros n l m e k Hk. unfold compute_density_frame.
  rewrite linspace_negative by assumption. reflexivity.
Qed.

Lemma compute_density_frame_invalid_l : forall n l m e k,
  (1 <= n)%Z -> (0 <= k)%Z ->
  ((l < 0)%Z ->
   compute_density_frame sf n l m e k = Raise (ValueError "alpha must be > -1"))
  /\ ((n - 1 < l)%Z ->
      compute_density_frame sf n l m e k
      = Raise (ValueError "n must be nonnegative.")).
Proof.
  intros n l m e k Hn Hk. unfold compute_density_frame.
  destruct (linspace_ok (- e) e Hk) as (x & -> & _). cbn [bind].
  destruct (meshgrid_ij x x x) as [[X Y] Z].
  split; intros Hl.
  - rewrite (proj1 (radial_wavefunction_invalid_l l _ Hn) Hl). reflexivity.
  - rewrite (proj2 (radial_wavefunction_invalid_l l _ Hn) Hl). reflexivity.
Qed.

(** Shapes and sizes of the arrays of a returned frame. *)
Lemma compute_density_frame_sizes : forall n l m e k fr,
  compute_density_frame sf n l m e k = Ok fr ->
  let c := Z.to_nat k in
  (0 <= k)%Z
  /\ List.length (v_x fr) = c
  /\ shape (v_X fr) = [c; c; c] /\ shape (v_Y fr) = [c; c; c]
  /\ shape (v_Z fr) = [c; c; c] /\ shape (v_r fr) = [c; c; c]
  /\ shape (v_theta fr) = [c; c; c]
  /\ shape (v_density fr) = [c; c; c]
  /\ List.length (data (v_X fr)) = (c * (c * c))%nat
  /\ List.length (data (v_r fr)) = (c * (c * c))%nat
  /\ List.length (data (v_theta fr)) = (c * (c * c))%nat
  /\ List.length (data (v_density_51 fr)) = (c * (c * c))%nat
  /\ List.length (data (v_density fr)) = (c * (c * c))%nat.
Proof.
  intros n l m e k fr H c.
  pose proof H as Hinv. apply compute_density_frame_inv in Hinv.
  destruct Hinv
    as (Hx & Hy & Hz & Hm & Hr & Hth & Hph & HR & HY & Hpsi & Hd & Hmk & Hden).
  pose proof Hx as Lx. apply linspace_inv in Lx. destruct Lx as [Lx Hk].
  pose proof Hm as SX. apply meshgrid_ij_length in SX.
  destruct SX as (SX & SY & SZ & LX & LY & LZ).
  rewrite Lx in SX, SY, SZ, LX, LY, LZ. fold c in SX, SY, SZ, LX, LY, LZ.
  pose proof HR as SR. apply radial_wavefunction_length in SR.
  destruct SR as [SR LR].
  assert (Sr : shape (v_r fr) = [c; c; c]) by (rewrite Hr; exact SX).
  assert (Lr : List.length (data (v_r fr)) = (c * (c * c))%nat).
  { rewrite Hr. cbn [azip amap data].
    rewrite length_map, !zip_with_length_min, !length_map. lia. }
  assert (Lth : List.length (data (v_theta fr)) = (c * (c * c))%nat).
  { rewrite Hth. cbn [azip amap data].
    rewrite !length_map, zip_with_length_min. lia. }
  assert (Ld : List.length (data (v_density_51 fr)) = (c * (c * c))%nat).
  { rewrite Hd, Hpsi, HY, Hph. unfold angular_wavefunction.
    cbn [azip amap data].
    rewrite !length_map, !zip_with_length_min. lia. }
  repeat split; try assumption.
  - rewrite Hth. exact SZ.
  - rewrite Hden, Hd, Hpsi. cbn [setitem_mask azip amap shape].
    rewrite SR. exact Sr.
  - rewrite Hden, Hmk. cbn [setitem_mask azip amap data].
    rewrite zip_with_length_min, length_map. lia.
Qed.

(** The mask law, entry by entry. *)
Lemma compute_density_frame_mask : forall n l m e k fr i x,
  compute_density_frame sf n l m e k = Ok fr ->
  nth_error (data (v_X fr)) i = Some x ->
  nth_error (data (v_density fr)) i
  = if ge0 x then Some 0%float else nth_error (data (v_density_51 fr)) i.
Proof.
  intros n l m e k fr i x H Hx.
  pose proof H as Hs. apply compute_density_frame_sizes in Hs.
  destruct Hs as (_ & _ & _ & _ & _ & _ & _ & _ & LX & _ & _ & Ld & _).
  pose proof H as Hinv. apply compute_density_frame_inv in Hinv.
  destruct Hinv as (_ & _ & _ & _ & _ & _ & _ & _ & _ & _ & _ & Hmk & Hden).
  rewrite Hden, Hmk. cbn [setitem_mask azip amap data].
  rewrite nth_error_zip_with_match, nth_error_map, Hx. cbn [option_map].
  assert (Hi : (i < List.length (data (v_density_51 fr)))%nat).
  { rewrite Ld, <- LX. apply nth_error_Some. congruence. }
  apply nth_error_Some in Hi.
  destruct (nth_error (data (v_density_51 fr)) i) as [d | ]; [ | congruence].
  destruct (ge0 x); reflexivity.
Qed.

(** Every entry of the returned field is a zero written by the mask or a
    square. *)
Lemma compute_density_frame_sign : forall n l m e k fr d,
  compute_density_frame sf n l m e k = Ok fr ->
  In d (data (v_density fr)) ->
  (0 <=? d)%float = true \/ is_nan d = true.
Proof.
  intros n l m e k fr d H Hd.
  pose proof H as Hinv. apply compute_density_frame_inv in Hinv.
  destruct Hinv as (_ & _ & _ & _ & _ & _ & _ & _ & _ & _ & H51 & _ & Hden).
  rewrite Hden in Hd. cbn [setitem_mask azip data] in Hd.
  apply in_zip_with in Hd. destruct Hd as (a & b & Ha & _ & ->).
  destruct b; [left; reflexivity | ].
  rewrite H51 in Ha. cbn [amap data] in Ha.
  apply in_map_iff in Ha. destruct Ha as (h & <- & _).
  destruct (Binary64.square_sign h); auto.
Qed.

End Density.

(** ** The heap *)

Section HeapLemmas.

Lemma alloc_app : forall (h s : heap) (o : obj),
  alloc o (h ++ s) = Some (Ok (List.length h + List.length s)%nat, h ++ (s ++ [o])).
Proof.
  intros h s o. unfold alloc. rewrite length_app, app_assoc. reflexivity.
Qed.

Lemma nth_error_suffix : forall (h s : heap) (i : nat),
  nth_error (h ++ s) (List.length h + i)%nat = nth_error s i.
Proof.
  intros h s i. rewrite nth_error_app2 by lia. f_equal. lia.
Qed.

Lemma load_float_app : forall (h s : heap) (i : nat),
  load_float (List.length h + i)%nat (h ++ s)
  = match nth_error s i with
    | Some (FloatArray a) => Some (Ok a, h ++ s)
    | _ => None
    end.
Proof. intros h s i. unfold load_float. rewrite nth_error_suffix. reflexivity. Qed.

Lemma load_complex_app : forall (h s : heap) (i : nat),
  load_complex (List.length h + i)%nat (h ++ s)
  = match nth_error s i with
    | Some (ComplexArray a) => Some (Ok a, h ++ s)
    | _ => None
    end.
Proof. intros h s i. unfold load_complex. rewrite nth_error_suffix. reflexivity. Qed.

Lemma load_bool_app : forall (h s : heap) (i : nat),
  load_bool (List.length h + i)%nat (h ++ s)
  = match nth_error s i with
    | Some (BoolArray a) => Some (Ok a, h ++ s)
    | _ => None
    end.
Proof. intros h s i. unfold load_bool. rewrite nth_error_suffix. reflexivity. Qed.

Lemma update_app : forall (h s : heap) (i : nat) (o : obj),
  update (List.length h + i)%nat o (h ++ s) = h ++ update i o s.
Proof.
  induction h as [ | a h IH]; intros s i o; simpl.
  - reflexivity.
  - rewrite IH. reflexivity.
Qed.

Lemma store_app : forall (h s : heap) (i : nat) (o : obj),
  store (List.length h + i)%nat o (h ++ s)
  = if (i <? List.length s)%nat then Some (Ok tt, h ++ update i o s) else None.
Proof.
  intros h s i o. unfold store. rewrite length_app, update_app.
  destruct (Nat.ltb_spec i (List.length s));
    destruct (Nat.ltb_spec (List.length h + i)%nat (List.length h + List.length s));
    try reflexivity; lia.
Qed.

End HeapLemmas.

Ltac heap_step :=
first [ rewrite alloc_app | rewrite load_float_app | rewrite load_complex_app
      | rewrite load_bool_app | rewrite store_app ];
cbn [List.length nth_error app update Nat.ltb Nat.leb].

Section HeapRefinement.

Variable sf : SpecialFunctions.

Lemma compute_density_h_refines : forall n l m e k (h : heap),
  match compute_density sf n l m e k with
  | Ok v =>
      exists pX pY pZ pD news,
        compute_density_h sf n l m e k h = Some (Ok (pX, pY, pZ, pD), h ++ news)
        /\ deref4 (h ++ news) (pX, pY, pZ, pD) = Some v
        /\ (List.length h <= pX < pY)%nat /\ (pY < pZ < pD)%nat
  | Raise ex =>
      exists news, compute_density_h sf n l m e k h = Some (Raise ex, h ++ news)
  end.
Proof.
  intros n l m e k h.
  replace (compute_density_h sf n l m e k h)
    with (compute_density_h sf n l m e k (h ++ []))
    by (rewrite app_nil_r; reflexivity).
  unfold compute_density, compute_density_frame, compute_density_h, linspace_h,
    meshgrid_ij_h, radial_wavefunction_h, angular_wavefunction_h,
    setitem_mask_h, radial_wavefunction, angular_wavefunction, meshgrid_ij.
  cbv [bindM lift ret]. cbv zeta.
  destruct (linspace (- e) e k) as [x | ex]; cbn [bind].
  2: { exists []. reflexivity. }
  repeat heap_step.
  destruct (py_truediv 2 (float_of_int n * 1)) as [q | ex]; cbn [bind].
  2: { eexists. repeat heap_step. reflexivity. }
  destruct (genlaguerre sf (n - l - 1) (2 * l + 1)) as [L | ex]; cbn [bind].
  2: { eexists. repeat heap_step. reflexivity. }
  repeat heap_step.
  do 5 eexists. split; [reflexivity | ].
  split; [ | lia].
  unfold deref4. rewrite !nth_error_suffix. reflexivity.
Qed.

End HeapRefinement.

(** ** Overflow of the normalisation *)

Section Overflow.

Variable sf : SpecialFunctions.

(** When both factorials overflow, [norm] is [inf / inf] and every radial
    value is NaN. *)
Lemma radial_wavefunction_overflow : forall (n l : Z) (r : ndarray float),
  (1 <= n)%Z -> (0 <= l <= n - 1)%Z ->
  sp_factorial sf (n - l - 1) = infinity ->
  sp_factorial sf (n + l) = infinity ->
  radial_wavefunction sf n l r = Ok (amap (fun _ => nan) r).
Proof.
  intros n l r Hn Hl F1 F2.
  rewrite radial_wavefunction_valid by assumption.
  f_equal. apply amap_ext. intros v.
  unfold radial_at, radial_norm. cbv zeta. rewrite F1, F2.
  rewrite Binary64.float_of_int_mul_infinity by lia.
  rewrite Binary64.mul_infinity_div_infinity.
  change (sqrt nan) with nan.
  rewrite !Binary64.mul_nan_l. reflexivity.
Qed.

Lemma real_times_complex_nan : forall b : complex,
  real_times_complex nan b = (nan, nan).
Proof.
  intros [br bi]. unfold real_times_complex.
  rewrite !Binary64.mul_nan_l, Binary64.sub_nan_l, Binary64.add_nan_l.
  reflexivity.
Qed.

(** With such factorials, and a [hypot] that returns NaN on two NaNs, every
    entry of the returned field outside the mask is NaN. *)
Lemma compute_density_frame_overflow : forall n l m e k fr i x,
  (1 <= n)%Z -> (0 <= l <= n - 1)%Z ->
  sp_factorial sf (n - l - 1) = infinity ->
  sp_factorial sf (n + l) = infinity ->
  libm_hypot sf nan nan = nan ->
  compute_density_frame sf n l m e k = Ok fr ->
  nth_error (data (v_X fr)) i = Some x ->
  ge0 x = false ->
  nth_error (data (v_density fr)) i = Some nan.
Proof.
  intros n l m e k fr i x Hn Hl F1 F2 Hh H Hx Hg.
  erewrite compute_density_frame_mask by eassumption. rewrite Hg.
  pose proof H as Hs. apply compute_density_frame_sizes in Hs. cbv zeta in Hs.
  destruct Hs as (_ & _ & _ & _ & _ & _ & _ & _ & LX & _ & _ & Ld & _).
  pose proof H as Hinv. apply compute_density_frame_inv in Hinv.
  destruct Hinv as (_ & _ & _ & _ & _ & _ & _ & HR & _ & Hpsi & H51 & _).
  rewrite radial_wavefunction_overflow in HR by assumption.
  injection HR as HR.
  assert (Hi : (i < List.length (data (v_density_51 fr)))%nat).
  { rewrite Ld, <- LX. apply nth_error_Some. congruence. }
  apply nth_error_Some in Hi.
  rewrite H51, Hpsi, <- HR in Hi |- *. cbn [amap azip data] in Hi |- *.
  rewrite !nth_error_map, nth_error_zip_with_match, nth_error_map in Hi |- *.
  destruct (nth_error (data (v_r fr)) i) as [r0 | ]; cbn [option_map] in Hi |- *;
    [ | congruence].
  destruct (nth_error (data (v_Y_ang fr)) i) as [y | ]; cbn [option_map] in Hi |- *;
    [ | congruence].
  rewrite real_times_complex_nan. unfold np_abs_complex. cbn [fst snd].
  rewrite Hh, Binary64.mul_nan_l. reflexivity.
Qed.

End Overflow.

(** ** The claims *)

Lemma compute_density_of_frame : forall sf n l m e k,
  compute_density sf n l m e k
  = match compute_density_frame sf n l m e k with
    | Ok fr => Ok (v_X fr, v_Y fr, v_Z fr, v_density fr)
    | Raise ex => Raise ex
    end.
Proof. reflexivity. Qed.

Lemma exn_class_not_invalid : forall (A : Type) (c : result A) (name : string),
  name <> "ValueError"%string -> name <> "ZeroDivisionError"%string ->
  ~ raises_class name c.
Proof.
  intros A c name H1 H2 (ex & _ & H). destruct ex; simpl in H; congruence.
Qed.

(** C1, as amended.  [compute_density] has no validator and never fails
    with [InvalidQuantumState].  For [n >= 1] and a non-negative number of
    grid points it fails exactly when [l] is outside [0, n-1], with the
    [ValueError] of SciPy's [genlaguerre]; [m] is never inspected, so a
    complete field is returned for every [m].  For [n = 0] it fails with
    [ZeroDivisionError]. *)
Theorem C1_quantum_numbers_unchecked : forall sf n l m e k,
  ~ raises_class "InvalidQuantumState" (compute_density sf n l m e k)
  /\ ((1 <= n)%Z -> (0 <= k)%Z ->
      ((0 <= l <= n - 1)%Z ->
       exists X Y Z D,
         compute_density sf n l m e k = Ok (X, Y, Z, D)
         /\ shape D = [Z.to_nat k; Z.to_nat k; Z.to_nat k])
      /\ ((l < 0)%Z ->
          compute_density sf n l m e k = Raise (ValueError "alpha must be > -1"))
      /\ ((n - 1 < l)%Z ->
          compute_density sf n l m e k = Raise (ValueError "n must be nonnegative.")))
  /\ ((0 <= k)%Z ->
      compute_density sf 0 l m e k
      = Raise (ZeroDivisionError "float division by zero")).
Proof.
  intros sf n l m e k. split; [ | split].
  - apply exn_class_not_invalid; discriminate.
  - intros Hn Hk. rewrite compute_density_of_frame. repeat split.
    + intros Hl.
      destruct (compute_density_frame_ok sf m e Hn Hl Hk) as [fr Hfr].
      rewrite Hfr. exists (v_X fr), (v_Y fr), (v_Z fr), (v_density fr).
      split; [reflexivity | ].
      apply compute_density_frame_sizes in Hfr. cbv zeta in Hfr. tauto.
    + intros Hl.
      rewrite (proj1 (compute_density_frame_invalid_l sf l m e Hn Hk) Hl).
      reflexivity.
    + intros Hl.
      rewrite (proj2 (compute_density_frame_invalid_l sf l m e Hn Hk) Hl).
      reflexivity.
  - intros Hk. unfold compute_density, compute_density_frame.
    destruct (linspace_ok (- e) e Hk) as (x & -> & _). cbn [bind].
    destruct (meshgrid_ij x x x) as [[X Y] Z].
    rewrite radial_wavefunction_zero_n. reflexivity.
Qed.

Lemma C1_quantum_numbers_unchecked_witness :
  (exists X Y Z D,
     compute_density RefLib.lib 3 2 3 15 2 = Ok (X, Y, Z, D)
     /\ shape D = [2; 2; 2]%nat)
  /\ compute_density RefLib.lib 1 (-1) 0 15 2 = Raise (ValueError "alpha must be > -1")
  /\ compute_density RefLib.lib 1 1 0 15 2 = Raise (ValueError "n must be nonnegative.")
  /\ compute_density RefLib.lib 0 0 0 15 2
     = Raise (ZeroDivisionError "float division by zero").
Proof.
  split; [ | split; [ | split]].
  - apply (proj1 (proj2 (C1_quantum_numbers_unchecked RefLib.lib 3 2 3 15 2)));
      lia.
  - apply (proj1 (proj2 (C1_quantum_numbers_unchecked RefLib.lib 1 (-1) 0 15 2)));
      lia.
  - apply (proj1 (proj2 (C1_quantum_numbers_unchecked RefLib.lib 1 1 0 15 2)));
      lia.
  - apply (proj2 (proj2 (C1_quantum_numbers_unchecked RefLib.lib 0 0 0 15 2))).
    lia.
Defined.

Lemma C1_counterexample :
  ~ Spec.valid_state 3 2 3
  /\ is_ok (compute_density RefLib.lib 3 2 3 15 10) = true
  /\ ~ Spec.valid_state 1 1 0
  /\ compute_density RefLib.lib 1 1 0 15 10
     = Raise (ValueError "n must be nonnegative.").
Proof.
  split; [ | split; [ | split]].
  - unfold Spec.valid_state. lia.
  - vm_compute. reflexivity.
  - unfold Spec.valid_state. lia.
  - vm_compute. reflexivity.
Qed.

(** C2.  For a valid state and grid the call returns a field of the shape
    of the grid, [resolution^3 >= 8] entries co-indexed with [X], which is
    exactly zero at every grid point whose X coordinate is [>= 0]: at
    every index [(i, j, q)] of the grid, [X] holds the [i]-th axis sample
    and the field holds 0 if that sample is [>= 0] and the value of line 51
    otherwise.  The mask is applied after the density: line 51 stores
    [|psi|^2] without reference to the mask, line 55 overwrites the masked
    entries and leaves the others as line 51 computed them. *)
Theorem C2_mask_law : forall sf n l m e k,
  Spec.valid_state n l m -> Spec.valid_grid e k ->
  exists fr,
    compute_density_frame sf n l m e k = Ok fr
    /\ compute_density sf n l m e k = Ok (v_X fr, v_Y fr, v_Z fr, v_density fr)
    /\ v_density_51 fr
       = amap (fun v => v * v)%float (amap (np_abs_complex sf) (v_psi fr))
    /\ v_density fr = setitem_mask (v_density_51 fr) (amap ge0 (v_X fr)) 0
    /\ List.length (data (v_density fr)) = List.length (data (v_X fr))
    /\ (forall i x,
          nth_error (data (v_X fr)) i = Some x ->
          ((0 <=? x)%float = true ->
           nth_error (data (v_density fr)) i = Some 0%float)
          /\ ((0 <=? x)%float = false ->
              nth_error (data (v_density fr)) i
              = nth_error (data (v_density_51 fr)) i))
    /\ List.length (v_x fr) = Z.to_nat k
    /\ shape (v_X fr) = [Z.to_nat k; Z.to_nat k; Z.to_nat k]
    /\ shape (v_density fr) = [Z.to_nat k; Z.to_nat k; Z.to_nat k]
    /\ List.length (data (v_density fr))
       = (Z.to_nat k * (Z.to_nat k * Z.to_nat k))%nat
    /\ (8 <= List.length (data (v_density fr)))%nat
    /\ forall i j q : nat,
         (i < Z.to_nat k)%nat -> (j < Z.to_nat k)%nat -> (q < Z.to_nat k)%nat ->
         exists x d,
           nth_error (v_x fr) i = Some x
           /\ getitem3 (v_X fr) i j q = Some x
           /\ nth_error (data (v_density_51 fr))
                ((i * Z.to_nat k + j) * Z.to_nat k + q) = Some d
           /\ getitem3 (v_density fr) i j q
              = Some (if (0 <=? x)%float then 0%float else d).
Proof.
  intros sf n l m e k (Hn & Hl & _) (_ & Hk).
  assert (Hk0 : (0 <= k)%Z) by lia.
  destruct (compute_density_frame_ok sf m e Hn Hl Hk0) as [fr Hfr].
  exists fr. split; [exact Hfr | ].
  split; [rewrite compute_density_of_frame, Hfr; reflexivity | ].
  pose proof Hfr as Hinv. apply compute_density_frame_inv in Hinv.
  destruct Hinv as (_ & _ & _ & Hm & _ & _ & _ & _ & _ & _ & H51 & Hmk & Hden).
  pose proof Hfr as Hs. apply compute_density_frame_sizes in Hs.
  cbv zeta in Hs.
  destruct Hs as (_ & Lx & SX & _ & _ & _ & _ & SD & LX & _ & _ & L51 & LD).
  split; [exact H51 | ].
  split; [rewrite <- Hmk; exact Hden | ].
  split; [congruence | ].
  split.
  { intros i x Hx.
    erewrite compute_density_frame_mask by eassumption. unfold ge0.
    split; intros ->; reflexivity. }
  split; [exact Lx | ]. split; [exact SX | ]. split; [exact SD | ].
  split; [exact LD | ].
  split.
  { rewrite LD. assert (2 <= Z.to_nat k)%nat by lia. nia. }
  intros i j q Hi Hj Hq.
  assert (Ei : exists x, nth_error (v_x fr) i = Some x).
  { destruct (nth_error (v_x fr) i) eqn:E; [eauto | ].
    apply nth_error_None in E. lia. }
  assert (Ej : exists y, nth_error (v_x fr) j = Some y).
  { destruct (nth_error (v_x fr) j) eqn:E; [eauto | ].
    apply nth_error_None in E. lia. }
  assert (Eq : exists z, nth_error (v_x fr) q = Some z).
  { destruct (nth_error (v_x fr) q) eqn:E; [eauto | ].
    apply nth_error_None in E. lia. }
  destruct Ei as (x & Ei). destruct Ej as (y & Ej). destruct Eq as (z & Eq).
  assert (Ed : exists d,
             nth_error (data (v_density_51 fr))
               ((i * Z.to_nat k + j) * Z.to_nat k + q) = Some d).
  { destruct (nth_error (data (v_density_51 fr))
                ((i * Z.to_nat k + j) * Z.to_nat k + q)) eqn:E; [eauto | ].
    apply nth_error_None in E. rewrite L51 in E. nia. }
  destruct Ed as (d & Ed).
  destruct (meshgrid_ij_nth i j q Hm Ei Ej Eq) as (GX & _).
  exists x, d. split; [exact Ei | ]. split; [exact GX | ].
  split; [exact Ed | ].
  unfold getitem3 in GX |- *. rewrite SX in GX. rewrite SD.
  erewrite compute_density_frame_mask by eassumption.
  unfold ge0. rewrite Ed. destruct (0 <=? x)%float; reflexivity.
Qed.

Lemma C2_mask_law_witness :
  exists fr,
    compute_density_frame RefLib.lib 1 0 0 15 2 = Ok fr
    /\ compute_density RefLib.lib 1 0 0 15 2
       = Ok (v_X fr, v_Y fr, v_Z fr, v_density fr)
    /\ v_density_51 fr
       = amap (fun v => v * v)%float
           (amap (np_abs_complex RefLib.lib) (v_psi fr))
    /\ v_density fr = setitem_mask (v_density_51 fr) (amap ge0 (v_X fr)) 0
    /\ List.length (data (v_density fr)) = List.length (data (v_X fr))
    /\ (forall i x,
          nth_error (data (v_X fr)) i = Some x ->
          ((0 <=? x)%float = true ->
           nth_error (data (v_density fr)) i = Some 0%float)
          /\ ((0 <=? x)%float = false ->
              nth_error (data (v_density fr)) i
              = nth_error (data (v_density_51 fr)) i))
    /\ List.length (v_x fr) = Z.to_nat 2
    /\ shape (v_X fr) = [Z.to_nat 2; Z.to_nat 2; Z.to_nat 2]
    /\ shape (v_density fr) = [Z.to_nat 2; Z.to_nat 2; Z.to_nat 2]
    /\ List.length (data (v_density fr))
       = (Z.to_nat 2 * (Z.to_nat 2 * Z.to_nat 2))%nat
    /\ (8 <= List.length (data (v_density fr)))%nat
    /\ forall i j q : nat,
         (i < Z.to_nat 2)%nat -> (j < Z.to_nat 2)%nat -> (q < Z.to_nat 2)%nat ->
         exists x d,
           nth_error (v_x fr) i = Some x
           /\ getitem3 (v_X fr) i j q = Some x
           /\ nth_error (data (v_density_51 fr))
                ((i * Z.to_nat 2 + j) * Z.to_nat 2 + q) = Some d
           /\ getitem3 (v_density fr) i j q
              = Some (if (0 <=? x)%float then 0%float else d).
Proof.
  apply (@C2_mask_law RefLib.lib 1 0 0 15 2).
  - unfold Spec.valid_state. lia.
  - unfold Spec.valid_grid. split; [reflexivity | lia].
Defined.




Lemma np_maximum_idempotent : forall v : float,
  np_maximum (np_maximum v eps) eps = np_maximum v eps.
Proof.
  intros v. unfold np_maximum at 2 3.
  destruct ((eps <=? v)%float || is_nan v) eqn:E.
  - unfold np_maximum. rewrite E. reflexivity.
  - reflexivity.
Qed.

(** C4, as amended.  The radial evaluator floors its input at [1e-10]
    before anything else, so its value at [r = 0] is its value at
    [r = 1e-10]; the only scalar division, by [n * a0], has a non-zero
    divisor, and no exception is raised for any valid [(n, l)] and any
    array [r].  Evaluated with the reference special functions, the value
    at [r = 0] is finite for every state with [n <= 29]; finiteness for
    every valid state is not claimed. *)
Theorem C4_radius_floor :
  (forall sf n l (r : ndarray float),
     (1 <= n)%Z -> (0 <= l <= n - 1)%Z ->
     (exists R, radial_wavefunction sf n l r = Ok R /\ shape R = shape r)
     /\ radial_wavefunction sf n l r
        = radial_wavefunction sf n l (amap (fun v => np_maximum v eps) r)
     /\ radial_wavefunction sf n l (mk_ndarray [1%nat] [0%float])
        = radial_wavefunction sf n l (mk_ndarray [1%nat] [eps])
     /\ (float_of_int n * 1 =? 0)%float = false)
  /\ forallb
       (fun n =>
          forallb
            (fun l =>
               match radial_wavefunction RefLib.lib (Z.of_nat n) (Z.of_nat l)
                       (mk_ndarray [1%nat] [0%float]) with
               | Ok R => forallb is_finite (data R)
               | Raise _ => false
               end)
            (seq 0 n))
       (seq 1 29) = true.
Proof.
  split; [ | vm_compute; reflexivity].
  intros sf n l r Hn Hl.
  rewrite !radial_wavefunction_valid by assumption.
  split; [eexists; split; reflexivity | ].
  split; [ | split].
  - f_equal. rewrite amap_amap. apply amap_ext. intros v.
    unfold radial_at, radial_rho. cbv zeta.
    rewrite np_maximum_idempotent. reflexivity.
  - reflexivity.
  - rewrite Binary64.mul_one_r. apply Binary64.float_of_int_nonzero. lia.
Qed.

Lemma C4_radius_floor_witness :
  (exists R,
     radial_wavefunction RefLib.lib 1 0 (mk_ndarray [1%nat] [0%float]) = Ok R
     /\ shape R = [1%nat])
  /\ radial_wavefunction RefLib.lib 1 0 (mk_ndarray [1%nat] [0%float])
     = radial_wavefunction RefLib.lib 1 0
         (amap (fun v => np_maximum v eps) (mk_ndarray [1%nat] [0%float]))
  /\ radial_wavefunction RefLib.lib 1 0 (mk_ndarray [1%nat] [0%float])
     = radial_wavefunction RefLib.lib 1 0 (mk_ndarray [1%nat] [eps])
  /\ (float_of_int 1 * 1 =? 0)%float = false.
Proof.
  apply (proj1 C4_radius_floor RefLib.lib 1%Z 0%Z
           (mk_ndarray [1%nat] [0%float]));
    lia.
Defined.

Lemma C4_counterexample :
  ((1 <= 172)%Z /\ (0 <= 0 <= 172 - 1)%Z)
  /\ radial_wavefunction RefLib.lib 172 0 (mk_ndarray [1%nat] [0%float])
     = Ok (mk_ndarray [1%nat] [nan])
  /\ is_finite nan = false.
Proof.
  split; [lia | ]. split; [vm_compute; reflexivity | reflexivity].
Qed.

(** C5, evaluated at [compute_density(1, 0, 0, 15, 3)]: the radius array
    from which the angles are derived is not floored.  At the origin sample
    [r[1,1,1]] is exactly 0, [Z / r] is [0 / 0 = NaN], the clip leaves the
    NaN, and [theta[1,1,1]] is [arccos] of NaN; the floor is applied only
    later, inside [radial_wavefunction], to its own copy. *)
Theorem C5_angles_from_unfloored_radius : forall sf,
  exists fr,
    compute_density_frame sf 1 0 0 15 3 = Ok fr
    /\ getitem3 (v_X fr) 1 1 1 = Some 0%float
    /\ getitem3 (v_r fr) 1 1 1 = Some 0%float
    /\ getitem3 (azip div (v_Z fr) (v_r fr)) 1 1 1 = Some nan
    /\ getitem3 (amap (fun v => np_clip v (-1) 1) (azip div (v_Z fr) (v_r fr)))
         1 1 1 = Some nan
    /\ getitem3 (v_theta fr) 1 1 1 = Some (libm_acos sf nan).
Proof.
  intros sf. eexists. split; [reflexivity | ].
  repeat split; vm_compute; reflexivity.
Qed.

(** C6.  [compute_density(1, 0, 0, 15, 10)] succeeds and returns a field of
    shape 10 x 10 x 10 whose entries are each [>= 0] or NaN, whatever the
    special functions; evaluated with the reference special functions every
    entry is [>= 0] and some entry is non-zero. *)
Theorem C6_ground_state_field :
  (forall sf,
     exists X Y Z D,
       compute_density sf 1 0 0 15 10 = Ok (X, Y, Z, D)
       /\ shape D = [10; 10; 10]%nat
       /\ List.length (data D) = 1000%nat
       /\ forall d, In d (data D) -> (0 <=? d)%float = true \/ is_nan d = true)
  /\ exists X Y Z D,
       compute_density RefLib.lib 1 0 0 15 10 = Ok (X, Y, Z, D)
       /\ shape D = [10; 10; 10]%nat
       /\ forallb (fun d => 0 <=? d)%float (data D) = true
       /\ existsb (fun d => negb (d =? 0)%float) (data D) = true.
Proof.
  split.
  - intros sf. rewrite compute_density_of_frame.
    assert (H1 : (1 <= 1)%Z) by lia.
    assert (H2 : (0 <= 0 <= 1 - 1)%Z) by lia.
    assert (H3 : (0 <= 10)%Z) by lia.
    destruct (compute_density_frame_ok sf 0 15 H1 H2 H3) as [fr Hfr].
    rewrite Hfr. exists (v_X fr), (v_Y fr), (v_Z fr), (v_density fr).
    pose proof Hfr as Hs. apply compute_density_frame_sizes in Hs.
    cbv zeta in Hs.
    split; [reflexivity | ]. split; [apply Hs | ]. split; [apply Hs | ].
    intros d Hd. eapply compute_density_frame_sign; eassumption.
  - destruct (compute_density RefLib.lib 1 0 0 15 10) as [[[[X Y] Z] D] | ex] eqn:E.
    + exists X, Y, Z, D. split; [reflexivity | ].
      vm_compute in E. injection E as _ _ _ <-.
      repeat split; vm_compute; reflexivity.
    + vm_compute in E. discriminate E.
Qed.

(** C7, as amended.  [compute_density] has no grid validation and never
    fails with [InvalidGridSpec].  The only check is NumPy's: a negative
    number of points fails with [ValueError] in the first [linspace] call,
    whatever the quantum numbers and before anything is allocated.  Any
    extent, positive or not, and any number of points from 0 on is accepted:
    with valid [(n, l)] a field of that shape is returned. *)
Theorem C7_grid_unchecked : forall sf n l m e k,
  ~ raises_class "InvalidGridSpec" (compute_density sf n l m e k)
  /\ ((k < 0)%Z ->
      compute_density sf n l m e k
      = Raise (ValueError "Number of samples, %s, must be non-negative.")
      /\ forall h : heap,
           compute_density_h sf n l m e k h
           = Some (Raise (ValueError "Number of samples, %s, must be non-negative."),
                   h))
  /\ ((0 <= k)%Z -> (1 <= n)%Z -> (0 <= l <= n - 1)%Z ->
      exists X Y Z D,
        compute_density sf n l m e k = Ok (X, Y, Z, D)
        /\ shape D = [Z.to_nat k; Z.to_nat k; Z.to_nat k]
        /\ List.length (data D) = (Z.to_nat k * (Z.to_nat k * Z.to_nat k))%nat).
Proof.
  intros sf n l m e k. split; [ | split].
  - apply exn_class_not_invalid; discriminate.
  - intros Hk. split.
    + rewrite compute_density_of_frame, compute_density_frame_negative by assumption.
      reflexivity.
    + intros h. unfold compute_density_h, linspace_h.
      cbv [bindM lift]. rewrite linspace_negative by assumption. reflexivity.
  - intros Hk Hn Hl. rewrite compute_density_of_frame.
    destruct (compute_density_frame_ok sf m e Hn Hl Hk) as [fr Hfr].
    rewrite Hfr. exists (v_X fr), (v_Y fr), (v_Z fr), (v_density fr).
    apply compute_density_frame_sizes in Hfr. cbv zeta in Hfr.
    split; [reflexivity | ]. split; apply Hfr.
Qed.

Lemma C7_grid_unchecked_witness :
  (compute_density RefLib.lib 1 0 0 15 (-1)
   = Raise (ValueError "Number of samples, %s, must be non-negative.")
   /\ forall h : heap,
        compute_density_h RefLib.lib 1 0 0 15 (-1) h
        = Some (Raise (ValueError "Number of samples, %s, must be non-negative."),
                h))
  /\ exists X Y Z D,
       compute_density RefLib.lib 1 0 0 (-15) 1 = Ok (X, Y, Z, D)
       /\ shape D = [1; 1; 1]%nat
       /\ List.length (data D) = 1%nat.
Proof.
  split.
  - apply (proj1 (proj2 (C7_grid_unchecked RefLib.lib 1 0 0 15 (-1)))). lia.
  - apply (proj2 (proj2 (C7_grid_unchecked RefLib.lib 1 0 0 (-15) 1))); lia.
Defined.

Lemma C7_counterexample :
  ~ Spec.valid_grid (-15) 1
  /\ is_ok (compute_density RefLib.lib 1 0 0 (-15) 1) = true
  /\ ~ Spec.valid_grid 0 0
  /\ is_ok (compute_density RefLib.lib 1 0 0 0 0) = true.
Proof.
  split; [ | split; [ | split]].
  - unfold Spec.valid_grid. intros [H _]. vm_compute in H. discriminate H.
  - vm_compute. reflexivity.
  - unfold Spec.valid_grid. intros [H _]. vm_compute in H. discriminate H.
  - vm_compute. reflexivity.
Qed.

(** C8, as amended.  For a valid state and grid the returned field has the
    shape of the grid, [resolution^3 >= 8] entries, and every entry is a
    binary64 number that is [>= 0] or NaN. *)
Theorem C8_field_sign_and_shape : forall sf n l m e k,
  Spec.valid_state n l m -> Spec.valid_grid e k ->
  exists X Y Z D,
    compute_density sf n l m e k = Ok (X, Y, Z, D)
    /\ shape D = [Z.to_nat k; Z.to_nat k; Z.to_nat k]
    /\ shape D = shape X
    /\ List.length (data D) = (Z.to_nat k * (Z.to_nat k * Z.to_nat k))%nat
    /\ (8 <= List.length (data D))%nat
    /\ forall d, In d (data D) -> (0 <=? d)%float = true \/ is_nan d = true.
Proof.
  intros sf n l m e k (Hn & Hl & _) (_ & Hk).
  assert (Hk0 : (0 <= k)%Z) by lia.
  rewrite compute_density_of_frame.
  destruct (compute_density_frame_ok sf m e Hn Hl Hk0) as [fr Hfr].
  rewrite Hfr. exists (v_X fr), (v_Y fr), (v_Z fr), (v_density fr).
  pose proof Hfr as Hs. apply compute_density_frame_sizes in Hs.
  cbv zeta in Hs.
  destruct Hs as (_ & _ & SX & _ & _ & _ & _ & SD & _ & _ & _ & _ & LD).
  split; [reflexivity | ]. split; [exact SD | ].
  split; [congruence | ]. split; [exact LD | ].
  split.
  - rewrite LD. assert (2 <= Z.to_nat k)%nat by lia. nia.
  - intros d Hd. eapply compute_density_frame_sign; eassumption.
Qed.

Lemma C8_field_sign_and_shape_witness :
  exists X Y Z D,
    compute_density RefLib.lib 1 0 0 15 2 = Ok (X, Y, Z, D)
    /\ shape D = [2; 2; 2]%nat
    /\ shape D = shape X
    /\ List.length (data D) = 8%nat
    /\ (8 <= List.length (data D))%nat
    /\ forall d, In d (data D) -> (0 <=? d)%float = true \/ is_nan d = true.
Proof.
  apply (@C8_field_sign_and_shape RefLib.lib 1 0 0 15 2).
  - unfold Spec.valid_state. lia.
  - unfold Spec.valid_grid. split; [reflexivity | lia].
Defined.

Lemma C8_counterexample :
  Spec.valid_state 172 0 0 /\ Spec.valid_grid 15 2
  /\ exists X Y Z D,
       compute_density RefLib.lib 172 0 0 15 2 = Ok (X, Y, Z, D)
       /\ nth_error (data X) 0 = Some (-15)%float
       /\ nth_error (data D) 0 = Some nan
       /\ (0 <=? nan)%float = false.
Proof.
  split; [unfold Spec.valid_state; lia | ].
  split; [unfold Spec.valid_grid; split; [reflexivity | lia] | ].
  destruct (compute_density RefLib.lib 172 0 0 15 2) as [[[[X Y] Z] D] | ex] eqn:E.
  - exists X, Y, Z, D. split; [reflexivity | ].
    vm_compute in E. injection E as <- _ _ <-.
    repeat split.
  - vm_compute in E. discriminate E.
Qed.

Lemma observe_pure : forall sf n l m e k (h : heap),
  observe sf h n l m e k = Some (compute_density sf n l m e k)
  /\ (exists news, final_heap sf h n l m e k = Some (h ++ news))
  /\ forall pX pY pZ pD h',
       compute_density_h sf n l m e k h = Some (Ok (pX, pY, pZ, pD), h') ->
       (List.length h <= pX < pY)%nat /\ (pY < pZ < pD)%nat.
Proof.
  intros sf n l m e k h. unfold observe, final_heap.
  pose proof (compute_density_h_refines sf n l m e k h) as H.
  destruct (compute_density sf n l m e k) as [v | ex].
  - destruct H as (pX & pY & pZ & pD & news & -> & -> & Hf).
    split; [reflexivity | ]. split; [eauto | ].
    intros pX' pY' pZ' pD' h' E. injection E as <- <- <- <- _. exact Hf.
  - destruct H as (news & ->).
    split; [reflexivity | ]. split; [eauto | ].
    intros pX' pY' pZ' pD' h' E. discriminate E.
Qed.

Lemma getitem3_cube : forall (A : Type) (a : ndarray A) (c i j q : nat),
  shape a = [c; c; c] ->
  getitem3 a i j q = nth_error (data a) ((i * c + j) * c + q).
Proof. intros A a c i j q H. unfold getitem3. rewrite H. reflexivity. Qed.

Lemma origin_radius : forall x y z : float,
  (x =? 0)%float = true -> (y =? 0)%float = true -> (z =? 0)%float = true ->
  sqrt (x * x + y * y + z * z) = 0%float
  /\ (z / sqrt (x * x + y * y + z * z))%float = nan
  /\ ge0 x = true.
Proof.
  intros x y z Hx Hy Hz.
  destruct (Binary64.eqb_zero_cases Hx) as [-> | ->];
    destruct (Binary64.eqb_zero_cases Hy) as [-> | ->];
    destruct (Binary64.eqb_zero_cases Hz) as [-> | ->];
    repeat split; vm_compute; reflexivity.
Qed.

(** Where all three coordinates of a grid point are zero. *)
Lemma compute_density_frame_origin : forall sf n l m e k fr i j q xi yj zq,
  compute_density_frame sf n l m e k = Ok fr ->
  nth_error (v_x fr) i = Some xi ->
  nth_error (v_y fr) j = Some yj ->
  nth_error (v_z fr) q = Some zq ->
  (xi =? 0)%float = true -> (yj =? 0)%float = true -> (zq =? 0)%float = true ->
  getitem3 (v_X fr) i j q = Some xi
  /\ getitem3 (v_Y fr) i j q = Some yj
  /\ getitem3 (v_Z fr) i j q = Some zq
  /\ getitem3 (v_r fr) i j q = Some 0%float
  /\ getitem3 (azip div (v_Z fr) (v_r fr)) i j q = Some nan
  /\ getitem3 (v_theta fr) i j q = Some (libm_acos sf nan)
  /\ getitem3 (v_density fr) i j q = Some 0%float.
Proof.
  intros sf n l m e k fr i j q xi yj zq H Hi Hj Hq Zx Zy Zz.
  pose proof H as Hinv. apply compute_density_frame_inv in Hinv.
  destruct Hinv as (_ & Ey & Ez & Hm & Hr & Hth & _).
  pose proof H as Hs. apply compute_density_frame_sizes in Hs. cbv zeta in Hs.
  destruct Hs as (_ & _ & SX & SY & SZ & Sr & Sth & SD & _).
  rewrite Ey in Hj. rewrite Ez in Hq.
  destruct (meshgrid_ij_nth i j q Hm Hi Hj Hq) as (GX & GY & GZ).
  destruct (origin_radius Zx Zy Zz) as (R0 & Rn & Gx).
  assert (Gr : getitem3 (v_r fr) i j q = Some 0%float).
  { rewrite getitem3_cube with (c := Z.to_nat k) by exact Sr. rewrite getitem3_cube with (c := Z.to_nat k) in GX by exact SX.
    rewrite getitem3_cube with (c := Z.to_nat k) in GY by exact SY. rewrite getitem3_cube with (c := Z.to_nat k) in GZ by exact SZ.
    rewrite Hr. cbn [amap azip data].
    rewrite nth_error_map, !nth_error_zip_with_match, !nth_error_map.
    rewrite GX, GY, GZ. cbn [option_map]. rewrite R0. reflexivity. }
  assert (Gd : getitem3 (azip div (v_Z fr) (v_r fr)) i j q = Some nan).
  { rewrite getitem3_cube with (c := Z.to_nat k) by exact SZ.
    rewrite getitem3_cube with (c := Z.to_nat k) in Gr by exact Sr.
    rewrite getitem3_cube with (c := Z.to_nat k) in GZ by exact SZ.
    cbn [azip data]. rewrite nth_error_zip_with_match, GZ, Gr.
    rewrite <- R0 at 1. rewrite Rn. reflexivity. }
  repeat split; try assumption.
  - rewrite getitem3_cube with (c := Z.to_nat k) by exact Sth. rewrite Hth.
    rewrite getitem3_cube with (c := Z.to_nat k) in Gd by exact SZ.
    cbn [amap data]. rewrite !nth_error_map, Gd. reflexivity.
  - rewrite getitem3_cube with (c := Z.to_nat k) by exact SD.
    rewrite getitem3_cube with (c := Z.to_nat k) in GX by exact SX.
    erewrite compute_density_frame_mask by eassumption.
    rewrite Gx. reflexivity.
Qed.

(** C10, as amended.  Whenever the axis samples contain exact zeros, the
    grid point built from them has [X = Y = Z = 0]; there [r] is 0, [Z / r]
    is NaN, [theta] is [arccos] of NaN, and the returned field holds
    exactly 0, written by the inclusive mask [X >= 0]. *)
Theorem C10_origin_is_masked : forall sf n l m e k fr i j q xi yj zq,
  compute_density_frame sf n l m e k = Ok fr ->
  nth_error (v_x fr) i = Some xi ->
  nth_error (v_y fr) j = Some yj ->
  nth_error (v_z fr) q = Some zq ->
  (xi =? 0)%float = true -> (yj =? 0)%float = true -> (zq =? 0)%float = true ->
  getitem3 (v_X fr) i j q = Some xi
  /\ getitem3 (v_r fr) i j q = Some 0%float
  /\ getitem3 (azip div (v_Z fr) (v_r fr)) i j q = Some nan
  /\ getitem3 (v_theta fr) i j q = Some (libm_acos sf nan)
  /\ getitem3 (v_density fr) i j q = Some 0%float.
Proof.
  intros sf n l m e k fr i j q xi yj zq H Hi Hj Hq Zx Zy Zz.
  destruct (@compute_density_frame_origin sf n l m e k fr i j q xi yj zq
              H Hi Hj Hq Zx Zy Zz)
    as (GX & _ & _ & Gr & Gd & Gt & GD).
  repeat split; assumption.
Qed.

Lemma C10_origin_is_masked_witness :
  exists fr,
    compute_density_frame RefLib.lib 2 1 0 15 3 = Ok fr
    /\ getitem3 (v_X fr) 1 1 1 = Some 0%float
    /\ getitem3 (v_r fr) 1 1 1 = Some 0%float
    /\ getitem3 (azip div (v_Z fr) (v_r fr)) 1 1 1 = Some nan
    /\ getitem3 (v_theta fr) 1 1 1 = Some (libm_acos RefLib.lib nan)
    /\ getitem3 (v_density fr) 1 1 1 = Some 0%float.
Proof.
  destruct (compute_density_frame RefLib.lib 2 1 0 15 3) as [fr | ex] eqn:E.
  - exists fr. split; [reflexivity | ].
    pose proof E as E'. vm_compute in E'. injection E' as <-.
    apply (@C10_origin_is_masked RefLib.lib 2 1 0 15 3 _ 1 1 1 0 0 0 E)%float;
      reflexivity.
  - vm_compute in E. discriminate E.
Defined.

Lemma C10_counterexample :
  (exists x,
     linspace (- 1) 1 99 = Ok x
     /\ List.length x = 99%nat
     /\ existsb (fun v => v =? 0)%float x = false)
  /\ (forall sf n l m fr,
        compute_density_frame sf n l m 1 99 = Ok fr ->
        existsb (fun v => v =? 0)%float (v_x fr) = false)
  /\ exists X Y Z D,
       compute_density RefLib.lib 172 0 0 15 3 = Ok (X, Y, Z, D)
       /\ nth_error (data D) 0 = Some nan.
Proof.
  assert (L : exists x,
             linspace (- 1) 1 99 = Ok x
             /\ List.length x = 99%nat
             /\ existsb (fun v => v =? 0)%float x = false).
  { destruct (linspace (- 1) 1 99) as [x | ex] eqn:E.
    - exists x. split; [reflexivity | ].
      vm_compute in E. injection E as <-. split; vm_compute; reflexivity.
    - vm_compute in E. discriminate E. }
  split; [exact L | ]. split.
  - intros sf n l m fr H. apply compute_density_frame_inv in H.
    destruct H as (Hx & _). destruct L as (x & E & _ & Hz).
    assert (Ex : Ok x = Ok (v_x fr)) by (rewrite <- E; exact Hx).
    injection Ex as <-. exact Hz.
  - destruct (compute_density RefLib.lib 172 0 0 15 3) as [[[[X Y] Z] D] | ex] eqn:E.
    + exists X, Y, Z, D. split; [reflexivity | ].
      vm_compute in E. injection E as _ _ _ <-. reflexivity.
    + vm_compute in E. discriminate E.
Qed.

(** ** Floating-point errors of the division at line 45 *)

Section FPErrLemmas.

Import FPErr.

Lemma registered_app : forall k reg1 reg2,
registered k (reg1 ++ reg2) = registered k reg1 || registered k reg2.
Proof. intros k reg1 reg2. unfold registered. apply existsb_app. Qed.

Lemma key_eqb_refl : forall k, key_eqb k k = true.
Proof.
intros [t n]. unfold key_eqb. cbn [fst snd].
rewrite String.eqb_refl, Nat.eqb_refl. reflexivity.
Qed.

Lemma registered_last : forall k reg, registered k (reg ++ [k]) = true.
Proof.
intros k reg. rewrite registered_app. unfold registered at 2.
cbn [existsb]. rewrite key_eqb_refl. apply orb_true_iff. right. reflexivity.
Qed.

(** A flag under the treatment ['warn'] and the filter action ['default']:
    the warning is shown and registered unless its key is registered
    already. *)
Lemma handle_warn_default : forall flag text lineno w,
w_filter w = f_default ->
exists w',
  handle t_warn flag text lineno w = (Returned tt, w')
  /\ w_filter w' = f_default
  /\ (forall k, registered k (w_registry w) = true ->
                registered k (w_registry w') = true)
  /\ (flag = true -> registered (text, lineno) (w_registry w') = true)
  /\ (flag = false \/ registered (text, lineno) (w_registry w) = true ->
      w' = w)
  /\ (flag = true -> registered (text, lineno) (w_registry w) = false ->
      w_registry w' = w_registry w ++ [(text, lineno)]
      /\ w_shown w' = w_shown w ++ [(text, lineno)])
  /\ (forall k, In k (w_shown w) -> In k (w_shown w')).
Proof.
intros flag text lineno w Hf. unfold handle, warn_explicit.
destruct flag.
- destruct (registered (text, lineno) (w_registry w)) eqn:E.
  + exists w. repeat split; auto; intros; congruence.
  + rewrite Hf. eexists. split; [reflexivity | ]. cbn [w_filter w_registry w_shown].
    split; [reflexivity | ].
    split; [intros k Hk; rewrite registered_app, Hk; reflexivity | ].
    split; [intros _; apply registered_last | ].
    split; [intros [H | H]; discriminate H | ].
    split; [intros _ _; split; reflexivity | ].
    intros k Hk. apply in_or_app. left. exact Hk.
- exists w. repeat split; auto; intros; congruence.
Qed.

(** A flag under a treatment that does not raise, with filters that do
    not turn the warning into an exception. *)
Lemma handle_returns : forall t flag text lineno w,
t <> t_raise -> w_filter w <> f_error ->
exists w', handle t flag text lineno w = (Returned tt, w')
           /\ w_filter w' = w_filter w.
Proof.
intros t flag text lineno w Ht Hf. unfold handle, warn_explicit.
destruct flag; [ | eauto].
destruct t; [eauto | | congruence].
destruct (registered (text, lineno) (w_registry w)); [eauto | ].
destruct (w_filter w) eqn:E; try congruence; eauto.
Qed.

Lemma divide_flags_invalid : forall (a b : ndarray float) t x y,
nth_error (data a) t = Some x -> nth_error (data b) t = Some y ->
(x =? 0)%float = true -> (y =? 0)%float = true ->
fe_invalid (divide_flags a b) = true.
Proof.
intros a b t x y Ha Hb Hx Hy. unfold divide_flags. cbn [fe_invalid].
apply existsb_exists. exists (div_flags x y). split.
- apply nth_error_In with (n := t).
  rewrite nth_error_zip_with_match, Ha, Hb. reflexivity.
- unfold div_flags. cbn [fe_invalid].
  change (is_zero x) with (x =? 0)%float.
  change (is_zero y) with (y =? 0)%float.
  rewrite Hx, Hy. reflexivity.
Qed.

(** The division under the error state and the filters Python and NumPy
    start with, when the invalid flag is raised and its warning has not
    been shown before. *)
Lemma np_divide_default : forall (a b : ndarray float) (lineno : nat) (w : warnings),
fe_invalid (divide_flags a b) = true ->
w_filter w = f_default ->
registered ("invalid value encountered in divide"%string, lineno) (w_registry w)
= false ->
exists w1,
  np_divide default_errstate w lineno a b = (Returned (azip div a b), w1)
  /\ registered ("invalid value encountered in divide"%string, lineno)
       (w_registry w1) = true
  /\ In ("invalid value encountered in divide"%string, lineno) (w_shown w1)
  /\ w1 <> w
  /\ np_divide default_errstate w1 lineno a b = (Returned (azip div a b), w1).
Proof.
intros a b lineno w Hfl Hf Hreg.
unfold np_divide, handle_fperr. cbn [default_errstate err_divide err_over err_invalid].
rewrite Hfl.
destruct (@handle_warn_default (fe_divbyzero (divide_flags a b))
            "divide by zero encountered in divide" lineno w Hf)
  as (wa & Ea & Fa & Ma & Ra & Ua & Na & Sa).
rewrite Ea.
destruct (@handle_warn_default (fe_overflow (divide_flags a b))
            "overflow encountered in divide" lineno wa Fa)
  as (wb & Eb & Fb & Mb & Rb & Ub & Nb & Sb).
rewrite Eb.
destruct (@handle_warn_default true
            "invalid value encountered in divide" lineno wb Fb)
  as (wc & Ec & Fc & Mc & Rc & Uc & Nc & Sc).
rewrite Ec.
exists wc. split; [reflexivity | ].
split; [apply Rc; reflexivity | ].
assert (Hregb : registered ("invalid value encountered in divide"%string, lineno)
                  (w_registry wb) = false).
{ destruct (fe_divbyzero (divide_flags a b)) eqn:F1;
    destruct (fe_overflow (divide_flags a b)) eqn:F2.
  - destruct (registered ("divide by zero encountered in divide"%string, lineno)
                (w_registry w)) eqn:R1.
    + rewrite (Ua (or_intror eq_refl)) in *.
      destruct (registered ("overflow encountered in divide"%string, lineno)
                  (w_registry w)) eqn:R2.
      * rewrite (Ub (or_intror eq_refl)). exact Hreg.
      * destruct (Nb eq_refl eq_refl) as [-> _].
        rewrite registered_app, Hreg. reflexivity.
    + destruct (Na eq_refl eq_refl) as [Na1 _].
      destruct (registered ("overflow encountered in divide"%string, lineno)
                  (w_registry wa)) eqn:R2.
      * rewrite (Ub (or_intror eq_refl)), Na1, registered_app, Hreg. reflexivity.
      * destruct (Nb eq_refl eq_refl) as [-> _].
        rewrite Na1, !registered_app, Hreg. reflexivity.
  - rewrite (Ub (or_introl eq_refl)).
    destruct (registered ("divide by zero encountered in divide"%string, lineno)
                (w_registry w)) eqn:R1.
    + rewrite (Ua (or_intror eq_refl)). exact Hreg.
    + destruct (Na eq_refl eq_refl) as [-> _].
      rewrite registered_app, Hreg. reflexivity.
  - rewrite (Ua (or_introl eq_refl)) in *.
    destruct (registered ("overflow encountered in divide"%string, lineno)
                (w_registry w)) eqn:R2.
    + rewrite (Ub (or_intror eq_refl)). exact Hreg.
    + destruct (Nb eq_refl eq_refl) as [-> _].
      rewrite registered_app, Hreg. reflexivity.
  - rewrite (Ub (or_introl eq_refl)), (Ua (or_introl eq_refl)). exact Hreg. }
destruct (Nc eq_refl Hregb) as [Nc1 Nc2].
split; [rewrite Nc2; apply in_or_app; right; left; reflexivity | ].
split.
{ intros E. rewrite E in Rc. rewrite Hreg in Rc. discriminate (Rc eq_refl). }
(* the second run *)
assert (K1 : fe_divbyzero (divide_flags a b) = false
             \/ registered ("divide by zero encountered in divide"%string, lineno)
                  (w_registry wc) = true).
{ destruct (fe_divbyzero (divide_flags a b)); [right | left; reflexivity].
  apply Mc, Mb, Ra. reflexivity. }
assert (K2 : fe_overflow (divide_flags a b) = false
             \/ registered ("overflow encountered in divide"%string, lineno)
                  (w_registry wc) = true).
{ destruct (fe_overflow (divide_flags a b)); [right | left; reflexivity].
  apply Mc, Rb. reflexivity. }
destruct (@handle_warn_default (fe_divbyzero (divide_flags a b))
            "divide by zero encountered in divide" lineno wc Fc)
  as (wd & Ed & _ & _ & _ & Ud & _).
rewrite Ed, (Ud K1).
destruct (@handle_warn_default (fe_overflow (divide_flags a b))
            "overflow encountered in divide" lineno wc Fc)
  as (we & Ee & _ & _ & _ & Ue & _).
rewrite Ee, (Ue K2).
destruct (@handle_warn_default true
            "invalid value encountered in divide" lineno wc Fc)
  as (wf & Ef & _ & _ & _ & Uf & _).
rewrite Ef, (Uf (or_intror (Rc eq_refl))). reflexivity.
Qed.

(** The division when the invalid flag is raised and the error state
    turns it into an exception. *)
Lemma np_divide_raise : forall (a b : ndarray float) (lineno : nat)
  (st : errstate) (w : warnings),
fe_invalid (divide_flags a b) = true ->
err_invalid st = t_raise ->
err_divide st <> t_raise -> err_over st <> t_raise ->
w_filter w <> f_error ->
exists w',
  np_divide st w lineno a b
  = (Raised "FloatingPointError" "invalid value encountered in divide", w').
Proof.
intros a b lineno st w Hfl Hi Hd Ho Hf.
unfold np_divide, handle_fperr. rewrite Hfl, Hi.
destruct (@handle_returns (err_divide st) (fe_divbyzero (divide_flags a b))
            "divide by zero encountered in divide" lineno w Hd Hf)
  as (wa & Ea & Fa).
rewrite Ea.
assert (Hfa : w_filter wa <> f_error) by congruence.
destruct (@handle_returns (err_over st) (fe_overflow (divide_flags a b))
            "overflow encountered in divide" lineno wa Ho Hfa)
  as (wb & Eb & Fb).
rewrite Eb. cbn [handle]. eauto.
Qed.

End FPErrLemmas.




(** ** Further properties *)

(** X1.  Whatever the other special functions are, when the two factorials
    of the normalisation both overflow to infinity (as they do from
    [n - l - 1 >= 171] on) the radial evaluator returns NaN at every
    radius. *)
Theorem X1_radial_nan_on_factorial_overflow : forall sf n l (r : ndarray float),
  (1 <= n)%Z -> (0 <= l <= n - 1)%Z ->
  sp_factorial sf (n - l - 1) = infinity ->
  sp_factorial sf (n + l) = infinity ->
  radial_wavefunction sf n l r = Ok (amap (fun _ => nan) r).
Proof.
  intros sf n l r Hn Hl F1 F2.
  apply radial_wavefunction_overflow; assumption.
Qed.

Lemma X1_radial_nan_on_factorial_overflow_witness :
  radial_wavefunction RefLib.lib 172 0 (mk_ndarray [2%nat] [0; 2.5]%float)
  = Ok (amap (fun _ => nan) (mk_ndarray [2%nat] [0; 2.5]%float)).
Proof.
  apply (@X1_radial_nan_on_factorial_overflow RefLib.lib 172 0);
    try lia; reflexivity.
Defined.

(** X2.  Under the same overflow, with a [hypot] that maps two NaNs to
    NaN, every entry of the returned field at a grid point with [X < 0] is
    NaN. *)
Theorem X2_density_nan_on_factorial_overflow : forall sf n l m e k fr i x,
  (1 <= n)%Z -> (0 <= l <= n - 1)%Z ->
  sp_factorial sf (n - l - 1) = infinity ->
  sp_factorial sf (n + l) = infinity ->
  libm_hypot sf nan nan = nan ->
  compute_density_frame sf n l m e k = Ok fr ->
  nth_error (data (v_X fr)) i = Some x ->
  (0 <=? x)%float = false ->
  nth_error (data (v_density fr)) i = Some nan.
Proof.
  intros sf n l m e k fr i x Hn Hl F1 F2 Hh H Hx Hg.
  eapply compute_density_frame_overflow; eassumption.
Qed.

Lemma X2_density_nan_on_factorial_overflow_witness :
  exists fr,
    compute_density_frame RefLib.lib 172 0 0 15 2 = Ok fr
    /\ nth_error (data (v_X fr)) 0 = Some (-15)%float
    /\ nth_error (data (v_density fr)) 0 = Some nan.
Proof.
  destruct (compute_density_frame RefLib.lib 172 0 0 15 2) as [fr | ex] eqn:E.
  - exists fr. split; [reflexivity | ].
    pose proof E as E'. vm_compute in E'. injection E' as <-.
    split; [reflexivity | ].
    apply (@X2_density_nan_on_factorial_overflow
             RefLib.lib 172 0 0 15 2 _ 0%nat (-15)%float);
      try lia; try reflexivity; exact E.
  - vm_compute in E. discriminate E.
Defined.

(** X3.  The three coordinate arrays form the full outer-product grid in
    'ij' order: each has shape [k x k x k], and at index [(i, j, q)] they
    hold the [i]-th, [j]-th and [q]-th axis sample. *)
Theorem X3_grid_is_outer_product : forall sf n l m e k fr i j q xi yj zq,
  compute_density_frame sf n l m e k = Ok fr ->
  nth_error (v_x fr) i = Some xi ->
  nth_error (v_x fr) j = Some yj ->
  nth_error (v_x fr) q = Some zq ->
  linspace (- e) e k = Ok (v_x fr)
  /\ List.length (v_x fr) = Z.to_nat k
  /\ shape (v_X fr) = [Z.to_nat k; Z.to_nat k; Z.to_nat k]
  /\ List.length (data (v_X fr)) = (Z.to_nat k * (Z.to_nat k * Z.to_nat k))%nat
  /\ getitem3 (v_X fr) i j q = Some xi
  /\ getitem3 (v_Y fr) i j q = Some yj
  /\ getitem3 (v_Z fr) i j q = Some zq.
Proof.
  intros sf n l m e k fr i j q xi yj zq H Hi Hj Hq.
  pose proof H as Hinv. apply compute_density_frame_inv in Hinv.
  destruct Hinv as (Hx & _ & _ & Hm & _).
  pose proof H as Hs. apply compute_density_frame_sizes in Hs. cbv zeta in Hs.
  destruct Hs as (_ & Lx & SX & _ & _ & _ & _ & _ & LX & _).
  destruct (meshgrid_ij_nth i j q Hm Hi Hj Hq) as (GX & GY & GZ).
  repeat split; assumption.
Qed.

Lemma X3_grid_is_outer_product_witness :
  exists fr,
    compute_density_frame RefLib.lib 1 0 0 15 3 = Ok fr
    /\ getitem3 (v_X fr) 0 1 2 = Some (-15)%float
    /\ getitem3 (v_Y fr) 0 1 2 = Some 0%float
    /\ getitem3 (v_Z fr) 0 1 2 = Some 15%float.
Proof.
  destruct (compute_density_frame RefLib.lib 1 0 0 15 3) as [fr | ex] eqn:E.
  - exists fr. split; [reflexivity | ].
    pose proof E as E'. vm_compute in E'. injection E' as <-.
    apply (@X3_grid_is_outer_product
             RefLib.lib 1 0 0 15 3 _ 0%nat 1%nat 2%nat (-15) 0 15 E)%float;
      reflexivity.
  - vm_compute in E. discriminate E.
Defined.

(** ** The option lists and the predefined sequence *)

Lemma range_from_In : forall len start v,
In v (range_from start len) <-> (start <= v < start + Z.of_nat len)%Z.
Proof.
induction len as [ | len IH]; intros start v.
- simpl. lia.
- cbn [range_from In]. rewrite IH. lia.
Qed.

Lemma py_range_In : forall start stop v,
In v (py_range start stop) <-> (start <= v < stop)%Z.
Proof.
intros start stop v. unfold py_range. rewrite range_from_In. lia.
Qed.

Lemma range_from_nth : forall len start i, (i < len)%nat ->
nth_error (range_from start len) i = Some (start + Z.of_nat i)%Z.
Proof.
induction len as [ | len IH]; intros start i Hi; [lia | ].
destruct i as [ | i]; cbn [range_from nth_error].
- f_equal. lia.
- rewrite IH by lia. f_equal. lia.
Qed.

Lemma list_index_range_from : forall len start v,
(start <= v < start + Z.of_nat len)%Z ->
list_index (range_from start len) v = Ok (Z.to_nat (v - start)).
Proof.
induction len as [ | len IH]; intros start v Hv; [lia | ].
cbn [range_from list_index].
destruct (Z.eqb_spec start v) as [-> | Hne].
- rewrite Z.sub_diag. reflexivity.
- rewrite IH by lia. cbn [bind]. f_equal. lia.
Qed.

Lemma m_options_In : forall l m, (0 <= l)%Z ->
In m (m_options l) <-> (- l <= m <= l)%Z.
Proof.
intros l m Hl. unfold m_options.
destruct (Z.ltb_spec 0 l).
- rewrite py_range_In. lia.
- cbn [In]. lia.
Qed.

Lemma m_options_index_zero : forall l : Z,
list_index (m_options l) 0 = Ok (Z.to_nat l).
Proof.
intros l. unfold m_options. destruct (Z.ltb_spec 0 l).
- unfold py_range. rewrite list_index_range_from by lia. f_equal. lia.
- replace (Z.to_nat l) with O by lia. reflexivity.
Qed.

Lemma orbital_sequence_generated :
orbital_sequence
= flat_map (fun n => flat_map (fun l => map (fun m => (n, l, m)) (m_options l))
                              (l_options n))
           (py_range 1 5).
Proof. reflexivity. Qed.

Lemma orbital_sequence_In : forall n l m,
In (n, l, m) orbital_sequence
<-> (1 <= n <= 4 /\ 0 <= l <= n - 1 /\ - l <= m <= l)%Z.
Proof.
intros n l m. rewrite orbital_sequence_generated.
rewrite in_flat_map. split.
- intros (n' & Hn & H). apply in_flat_map in H. destruct H as (l' & Hl & H).
  apply in_map_iff in H. destruct H as (m' & E & Hm). injection E as -> -> ->.
  apply py_range_In in Hn. unfold l_options in Hl. apply py_range_In in Hl.
  rewrite m_options_In in Hm by lia. lia.
- intros (Hn & Hl & Hm). exists n. split; [apply py_range_In; lia | ].
  apply in_flat_map. exists l. split; [apply py_range_In; lia | ].
  apply in_map_iff. exists m. split; [reflexivity | ].
  apply m_options_In; lia.
Qed.

Lemma orbital_sequence_NoDup : NoDup orbital_sequence.
Proof.
unfold orbital_sequence.
repeat (constructor; [cbn [In]; intuition congruence | ]).
constructor.
Qed.

(** X4.  The three select boxes offer exactly the quantum states with
    [1 <= n <= 29], [0 <= l <= n - 1] and [-l <= m <= l]: every state the
    user can pick is one [compute_density] accepts, and the branch
    [[0]] taken for [l = 0] offers what [range(-l, l+1)] would. *)
Theorem X4_offered_states : forall n l m : Z,
  In n n_options /\ In l (l_options n) /\ In m (m_options l)
  <-> (1 <= n <= 29 /\ 0 <= l <= n - 1 /\ - l <= m <= l)%Z.
Proof.
  intros n l m. unfold n_options, l_options. rewrite !py_range_In.
  split.
  - intros (Hn & Hl & Hm). rewrite m_options_In in Hm by lia. lia.
  - intros (Hn & Hl & Hm). rewrite m_options_In by lia. lia.
Qed.

(** X5.  The preselected indices exist.  For every offered [n] the list
    [l_options] is not empty and its entry 0 is [l = 0]; for every [l]
    whatever, [m_options.index(0)] does not raise: it is [l] for [l > 0]
    and 0 otherwise, and the option at that index is [m = 0]. *)
Theorem X5_default_indices : forall n l : Z,
  In n n_options ->
  nth_error (l_options n) 0 = Some 0%Z
  /\ list_index (m_options l) 0 = Ok (Z.to_nat l)
  /\ nth_error (m_options l) (Z.to_nat l) = Some 0%Z.
Proof.
  intros n l Hn. split; [ | split].
  - unfold n_options in Hn. apply py_range_In in Hn.
    unfold l_options, py_range. rewrite range_from_nth by lia. reflexivity.
  - apply m_options_index_zero.
  - unfold m_options. destruct (Z.ltb_spec 0 l).
    + unfold py_range. rewrite range_from_nth by lia. f_equal. lia.
    + replace (Z.to_nat l) with O by lia. reflexivity.
Qed.

Lemma X5_default_indices_witness :
  nth_error (l_options 3) 0 = Some 0%Z
  /\ list_index (m_options 2) 0 = Ok (Z.to_nat 2)
  /\ nth_error (m_options 2) (Z.to_nat 2) = Some 0%Z.
Proof.
  apply (@X5_default_indices 3%Z 2%Z). vm_compute. tauto.
Defined.

(** X6.  [orbital_sequence] lists exactly the states with [n <= 4], each
    once.  Every entry can be picked in the select boxes, and
    [compute_density] returns a field for it on every grid with a
    non-negative number of points. *)
Theorem X6_orbital_sequence_states :
  (forall n l m : Z,
     In (n, l, m) orbital_sequence
     <-> (1 <= n <= 4 /\ 0 <= l <= n - 1 /\ - l <= m <= l)%Z)
  /\ NoDup orbital_sequence
  /\ forall sf n l m e k,
       In (n, l, m) orbital_sequence -> (0 <= k)%Z ->
       In n n_options /\ In l (l_options n) /\ In m (m_options l)
       /\ exists X Y Z D,
            compute_density sf n l m e k = Ok (X, Y, Z, D)
            /\ shape D = [Z.to_nat k; Z.to_nat k; Z.to_nat k].
Proof.
  split; [exact orbital_sequence_In | ].
  split; [exact orbital_sequence_NoDup | ].
  intros sf n l m e k H Hk. apply orbital_sequence_In in H.
  destruct H as (Hn & Hl & Hm).
  split; [apply py_range_In; lia | ].
  split; [apply py_range_In; lia | ].
  split; [apply m_options_In; lia | ].
  rewrite compute_density_of_frame.
  destruct (@compute_density_frame_ok sf n l m e k) as [fr Hfr]; try lia.
  rewrite Hfr. exists (v_X fr), (v_Y fr), (v_Z fr), (v_density fr).
  split; [reflexivity | ].
  apply compute_density_frame_sizes in Hfr. cbv zeta in Hfr. apply Hfr.
Qed.

Lemma X6_orbital_sequence_states_witness :
  In 3%Z n_options /\ In 2%Z (l_options 3) /\ In (-1)%Z (m_options 2)
  /\ exists X Y Z D,
       compute_density RefLib.lib 3 2 (-1) 15 2 = Ok (X, Y, Z, D)
       /\ shape D = [Z.to_nat 2; Z.to_nat 2; Z.to_nat 2].
Proof.
  apply (proj2 (proj2 X6_orbital_sequence_states) RefLib.lib 3%Z 2%Z (-1)%Z).
  - vm_compute. tauto.
  - lia.
Defined.

(** ** The order of binary64 *)

Module Order64.

Lemma SFcompare_finite_pos : forall m1 e1 m2 e2,
SFcompare (S754_finite false m1 e1) (S754_finite false m2 e2)
= Some (match Z.compare e1 e2 with
        | Lt => Lt | Gt => Gt | Eq => Pos.compare m1 m2
        end).
Proof. reflexivity. Qed.

Lemma SFcompare_finite_neg : forall m1 e1 m2 e2,
SFcompare (S754_finite true m1 e1) (S754_finite true m2 e2)
= Some (match Z.compare e1 e2 with
        | Lt => Gt | Gt => Lt | Eq => CompOpp (Pos.compare m1 m2)
        end).
Proof. reflexivity. Qed.

Ltac order_cases :=
repeat match goal with
       | H : context [Z.compare ?a ?b] |- _ =>
           destruct (Z.compare_spec a b); try discriminate H
       | |- context [Z.compare ?a ?b] =>
           destruct (Z.compare_spec a b)
       | H : context [Pos.compare ?a ?b] |- _ =>
           destruct (Pos.compare_spec a b); try discriminate H
       | |- context [Pos.compare ?a ?b] =>
           destruct (Pos.compare_spec a b)
       end;
cbn [CompOpp] in *; try reflexivity; try discriminate; try lia.

Lemma SFleb_trans : forall x y z : spec_float,
SFleb x y = true -> SFleb y z = true -> SFleb x z = true.
Proof.
intros x y z. unfold SFleb.
destruct x as [sx | sx | | sx mx ex]; destruct y as [sy | sy | | sy my ey];
  destruct z as [sz | sz | | sz mz ez];
  try destruct sx; try destruct sy; try destruct sz;
  try (cbn; congruence);
  rewrite ?SFcompare_finite_pos, ?SFcompare_finite_neg; intros H1 H2;
  order_cases.
Qed.

Lemma SFleb_total : forall x y : spec_float,
x <> S754_nan -> y <> S754_nan -> SFleb x y = false -> SFleb y x = true.
Proof.
intros x y. unfold SFleb.
destruct x as [sx | sx | | sx mx ex]; destruct y as [sy | sy | | sy my ey];
  try destruct sx; try destruct sy;
  try (cbn; congruence);
  rewrite ?SFcompare_finite_pos, ?SFcompare_finite_neg; intros _ _ H1;
  order_cases.
Qed.

Lemma SFleb_refl : forall x : spec_float, x <> S754_nan -> SFleb x x = true.
Proof.
intros x. unfold SFleb.
destruct x as [sx | sx | | sx mx ex]; try destruct sx;
  try (cbn; congruence);
  rewrite ?SFcompare_finite_pos, ?SFcompare_finite_neg; intros _;
  order_cases.
Qed.

Lemma is_nan_spec : forall x : float,
is_nan x = true <-> Prim2SF x = S754_nan.
Proof.
intros x. unfold is_nan. rewrite FloatAxioms.eqb_spec.
split.
- intros H. destruct (Prim2SF x) as [s | s | | s m e] eqn:E; try reflexivity;
    exfalso; revert H; unfold SFeqb;
    destruct s; rewrite ?SFcompare_finite_pos, ?SFcompare_finite_neg;
    try (cbn; congruence);
    rewrite Z.compare_refl, Pos.compare_refl; cbn; congruence.
- intros ->. reflexivity.
Qed.

Lemma is_nan_false_spec : forall x : float,
is_nan x = false <-> Prim2SF x <> S754_nan.
Proof.
intros x. rewrite <- is_nan_spec. destruct (is_nan x); split; congruence.
Qed.

Lemma is_nan_eq : forall x : float, is_nan x = true -> x = nan.
Proof.
intros x H. apply is_nan_spec in H. apply Prim2SF_inj. rewrite H. reflexivity.
Qed.

Lemma leb_trans : forall x y z : float,
(x <=? y)%float = true -> (y <=? z)%float = true -> (x <=? z)%float = true.
Proof. intros x y z. rewrite !leb_spec. apply SFleb_trans. Qed.

Lemma leb_total : forall x y : float,
is_nan x = false -> is_nan y = false ->
(x <=? y)%float = false -> (y <=? x)%float = true.
Proof.
intros x y Hx Hy. rewrite !leb_spec.
apply SFleb_total; apply is_nan_false_spec; assumption.
Qed.

Lemma leb_refl : forall x : float, is_nan x = false -> (x <=? x)%float = true.
Proof.
intros x Hx. rewrite leb_spec. apply SFleb_refl, is_nan_false_spec, Hx.
Qed.

Lemma leb_not_nan : forall x y : float,
(x <=? y)%float = true -> is_nan x = false /\ is_nan y = false.
Proof.
intros x y. rewrite leb_spec, !is_nan_false_spec.
destruct (Prim2SF x), (Prim2SF y); cbn; intros H; split; congruence.
Qed.

Lemma leb_nan_l : forall x y : float, is_nan x = true -> (x <=? y)%float = false.
Proof.
intros x y Hx. destruct (x <=? y)%float eqn:E; [ | reflexivity].
apply leb_not_nan in E. destruct E as [E _]. congruence.
Qed.

Lemma ltb_leb : forall x y : float,
(x <? y)%float = true -> (x <=? y)%float = true.
Proof.
intros x y. rewrite ltb_spec, leb_spec. unfold SFltb, SFleb.
destruct (SFcompare (Prim2SF x) (Prim2SF y)) as [[ | | ] | ]; congruence.
Qed.

Lemma leb_opp_pos : forall e : float,
(0 <? e)%float = true -> (0 <=? - e)%float = false.
Proof.
intros e. rewrite ltb_spec, leb_spec, opp_spec.
change (Prim2SF 0) with (S754_zero false).
destruct (Prim2SF e) as [s | s | | s m ex]; try destruct s;
  cbn; congruence.
Qed.

Lemma eqb_opp_pos : forall e : float,
(0 <? e)%float = true -> (- e =? 0)%float = false.
Proof.
intros e. rewrite ltb_spec, FloatAxioms.eqb_spec, opp_spec.
change (Prim2SF 0) with (S754_zero false).
destruct (Prim2SF e) as [s | s | | s m ex]; try destruct s;
  cbn; congruence.
Qed.

Lemma binary_round_opp : forall s p,
binary_round prec emax (negb s) p 0 = SFopp (binary_round prec emax s p 0).
Proof.
intros s p. unfold binary_round.
destruct (shl_align p 0 (fexp prec emax (Z.pos (digits2_pos p) + 0))) as [mz ez].
unfold binary_round_aux.
destruct (shr_fexp prec emax (Z.pos mz) ez loc_Exact) as [mrs1 e1].
destruct (shr_fexp prec emax
            (round_nearest_even (shr_m mrs1) (loc_of_shr_record mrs1))
            e1 loc_Exact) as [mrs2 e2].
destruct (shr_m mrs2) as [ | mf | mf]; try reflexivity.
destruct (e2 <=? emax - prec)%Z; reflexivity.
Qed.

(** For a non-zero integer, converting the opposite gives the opposite of
    the conversion. *)
Lemma float_of_int_opp : forall z : Z, z <> 0%Z ->
float_of_int (- z) = (- float_of_int z)%float.
Proof.
intros z Hz. apply Prim2SF_inj. rewrite opp_spec.
unfold float_of_int, binary_normalize.
destruct z as [ | p | p]; try congruence; cbn [Z.opp].
- destruct (Binary64.binary_round_int true p) as [Hv1 _].
  destruct (Binary64.binary_round_int false p) as [Hv2 _].
  rewrite !Prim2SF_SF2Prim by assumption.
  apply (binary_round_opp false).
- destruct (Binary64.binary_round_int true p) as [Hv1 _].
  destruct (Binary64.binary_round_int false p) as [Hv2 _].
  rewrite !Prim2SF_SF2Prim by assumption.
  apply (binary_round_opp true).
Qed.

Lemma mul_nan_r : forall x : float, (x * nan)%float = nan.
Proof.
intros x. apply Prim2SF_inj. rewrite mul_spec.
change (Prim2SF nan) with S754_nan.
destruct (Prim2SF x); reflexivity.
Qed.

Lemma mul_comm : forall x y : float, (x * y)%float = (y * x)%float.
Proof.
intros x y. apply Prim2SF_inj. rewrite !mul_spec.
destruct (Prim2SF x) as [sx | sx | | sx mx ex];
  destruct (Prim2SF y) as [sy | sy | | sy my ey];
  try destruct sx; try destruct sy; try reflexivity;
  unfold SF64mul, SFmul;
  rewrite (Pos.mul_comm mx my), (Z.add_comm ex ey); reflexivity.
Qed.

Lemma mul_one_l : forall x : float, (1 * x)%float = x.
Proof. intros x. rewrite mul_comm. apply Binary64.mul_one_r. Qed.

(** A positive number times a number that is [>= 0] or NaN is [>= 0] or
    NaN. *)
Lemma mul_sign : forall (c x : float) m e,
Prim2SF c = S754_finite false m e ->
(0 <=? x)%float = true \/ is_nan x = true ->
(0 <=? c * x)%float = true \/ is_nan (c * x) = true.
Proof.
intros c x m e Hc [Hx | Hx].
- rewrite is_nan_spec, leb_spec, mul_spec, Hc.
  rewrite leb_spec in Hx. change (Prim2SF 0) with (S754_zero false) in *.
  destruct (Prim2SF x) as [s | s | | s mx ex]; try destruct s;
    try discriminate Hx; try (left; reflexivity).
  unfold SF64mul, SFmul, binary_round_aux. cbn [xorb].
  destruct (shr_fexp prec emax (Z.pos (m * mx)) (e + ex) loc_Exact) as [mrs1 e1].
  destruct (shr_fexp prec emax
              (round_nearest_even (shr_m mrs1) (loc_of_shr_record mrs1))
              e1 loc_Exact) as [mrs2 e2].
  destruct (shr_m mrs2) as [ | mf | mf].
  + left. reflexivity.
  + left. destruct (e2 <=? emax - prec)%Z; reflexivity.
  + right. reflexivity.
- right. rewrite (@is_nan_eq x Hx), mul_nan_r. reflexivity.
Qed.

Lemma is_finite_cases : forall x : float,
is_finite x = true -> zero_or_finite (Prim2SF x).
Proof.
intros x H. unfold is_finite, is_infinity in H.
apply negb_true_iff, orb_false_iff in H. destruct H as [Hn Hi].
apply is_nan_false_spec in Hn.
rewrite FloatAxioms.eqb_spec, abs_spec in Hi.
change (Prim2SF infinity) with (S754_infinity false) in Hi.
unfold zero_or_finite.
destruct (Prim2SF x) as [s | s | | s m e]; try congruence; eauto.
discriminate Hi.
Qed.

Lemma div_finite_numerator : forall (d f : float) (s : bool),
finite_or_infinite s (Prim2SF f) ->
is_finite (d / f) = true -> zero_or_finite (Prim2SF d).
Proof.
intros d f s Hf H. apply is_finite_cases in H. rewrite div_spec in H.
unfold zero_or_finite in *.
destruct (Prim2SF d) as [sd | sd | | sd md ed]; eauto; exfalso;
  destruct Hf as [Hf | (m & e & Hf)]; rewrite Hf in H; cbn in H;
  destruct H as [(s' & H) | (s' & m' & e' & H)]; discriminate H.
Qed.

Lemma zero_mul_finite : forall x : float,
zero_or_finite (Prim2SF x) -> exists s, Prim2SF (0 * x) = S754_zero s.
Proof.
intros x H. rewrite mul_spec. change (Prim2SF 0) with (S754_zero false).
destruct H as [(s & H) | (s & m & e & H)]; rewrite H; cbn; eauto.
Qed.

Lemma zero_div_int : forall (f : float) (s : bool),
finite_or_infinite s (Prim2SF f) -> exists s', Prim2SF (0 / f) = S754_zero s'.
Proof.
intros f s H. rewrite div_spec. change (Prim2SF 0) with (S754_zero false).
destruct H as [H | (m & e & H)]; rewrite H; cbn; eauto.
Qed.

Lemma zero_mul_zero_or_finite : forall (z x : float) (s : bool),
Prim2SF z = S754_zero s -> zero_or_finite (Prim2SF x) ->
exists s', Prim2SF (z * x) = S754_zero s'.
Proof.
intros z x s Hz H. rewrite mul_spec, Hz.
destruct H as [(s' & H) | (s' & m & e & H)]; rewrite H; cbn; eauto.
Qed.

Lemma zero_add : forall (z x : float) (s : bool),
Prim2SF z = S754_zero s -> (x =? 0)%float = false -> (z + x)%float = x.
Proof.
intros z x s Hz Hx. apply Prim2SF_inj. rewrite add_spec, Hz.
rewrite FloatAxioms.eqb_spec in Hx.
change (Prim2SF 0) with (S754_zero false) in Hx.
destruct (Prim2SF x) as [sx | sx | | sx m e]; try reflexivity.
destruct sx; discriminate Hx.
Qed.

End Order64.

(** ** The maximum of the field and the isosurface level *)

Lemma np_maximum_cases : forall d a : float,
(is_nan d = true -> np_maximum d a = d)
/\ (is_nan d = false -> is_nan a = true -> np_maximum d a = a)
/\ (is_nan d = false -> is_nan a = false ->
    (np_maximum d a = d \/ np_maximum d a = a)
    /\ (d <=? np_maximum d a)%float = true
    /\ (a <=? np_maximum d a)%float = true).
Proof.
intros d a. unfold np_maximum. split; [ | split].
- intros ->. rewrite orb_true_r. reflexivity.
- intros Hd Ha. rewrite Hd, Order64.leb_nan_l by assumption. reflexivity.
- intros Hd Ha. rewrite Hd, orb_false_r.
  destruct (a <=? d)%float eqn:E.
  + split; [left; reflexivity | ].
    split; [apply Order64.leb_refl; assumption | exact E].
  + split; [right; reflexivity | ].
    split; [apply Order64.leb_total; assumption
           | apply Order64.leb_refl; assumption].
Qed.

(** The reduction of [numpy.maximum] over a non-empty list. *)
Lemma fold_np_maximum : forall (ds : list float) (d : float),
let mx := fold_left np_maximum ds d in
In mx (d :: ds)
/\ (is_nan d = true -> mx = d)
/\ ((exists v, In v ds /\ is_nan v = true) -> is_nan mx = true)
/\ (is_nan d = false -> (forall v, In v ds -> is_nan v = false) ->
    (d <=? mx)%float = true /\ forall v, In v ds -> (v <=? mx)%float = true).
Proof.
induction ds as [ | a ds IH]; intros d; cbn zeta.
- cbn [fold_left]. split; [left; reflexivity | ]. split; [reflexivity | ].
  split; [intros (v & [] & _) | ].
  intros Hd _. split; [apply Order64.leb_refl; assumption | intros v []].
- cbn [fold_left].
  destruct (IH (np_maximum d a)) as (I1 & I2 & I3 & I4).
  destruct (np_maximum_cases d a) as (C1 & C2 & C3).
  split; [ | split; [ | split]].
  + destruct I1 as [E | I1]; [ | right; right; exact I1].
    rewrite <- E. unfold np_maximum.
    destruct ((a <=? d)%float || is_nan d); [left | right; left]; reflexivity.
  + intros Hd. rewrite (C1 Hd) in I2 |- *. exact (I2 Hd).
  + intros (v & [<- | Hv] & Hn).
    * destruct (is_nan d) eqn:Hd.
      -- rewrite (C1 eq_refl) in I2 |- *. rewrite (I2 Hd). exact Hd.
      -- rewrite (C2 eq_refl Hn) in I2 |- *. rewrite (I2 Hn). exact Hn.
    * apply I3. exists v. auto.
  + intros Hd Hall.
    assert (Ha : is_nan a = false) by (apply Hall; left; reflexivity).
    destruct (C3 Hd Ha) as (Hc & Hdm & Ham).
    assert (Hm : is_nan (np_maximum d a) = false)
      by (destruct Hc as [-> | ->]; assumption).
    destruct (I4 Hm) as (J1 & J2).
    { intros v Hv. apply Hall. right. exact Hv. }
    split; [eapply Order64.leb_trans; eassumption | ].
    intros v [<- | Hv];
      [eapply Order64.leb_trans; eassumption | apply J2; exact Hv].
Qed.

Lemma np_max_empty : forall a : ndarray float, data a = [] ->
np_max a
= Raise (ValueError
           "zero-size array to reduction operation maximum which has no identity").
Proof. intros a H. unfold np_max. rewrite H. reflexivity. Qed.

Lemma np_max_inv : forall (a : ndarray float) (mx : float),
np_max a = Ok mx ->
In mx (data a)
/\ (is_nan mx = true <-> exists v, In v (data a) /\ is_nan v = true)
/\ ((forall v, In v (data a) -> is_nan v = false) ->
    forall v, In v (data a) -> (v <=? mx)%float = true).
Proof.
intros a mx H. unfold np_max in H.
destruct (data a) as [ | d ds]; [discriminate H | ].
injection H as <-.
destruct (fold_np_maximum ds d) as (I1 & I2 & I3 & I4). cbv zeta in *.
split; [exact I1 | ]. split; [split | ].
- intros Hn. eexists. split; [exact I1 | exact Hn].
- intros (v & [<- | Hv] & Hn).
  + rewrite I2 by assumption. exact Hn.
  + apply I3. exists v. auto.
- intros Hall.
  destruct I4 as (J1 & J2).
  { apply Hall. left. reflexivity. }
  { intros v Hv. apply Hall. right. exact Hv. }
  intros v [<- | Hv]; [exact J1 | apply J2; exact Hv].
Qed.

Lemma np_max_ok : forall a : ndarray float, data a <> [] ->
exists mx, np_max a = Ok mx.
Proof.
intros a H. unfold np_max. destruct (data a); [congruence | eauto].
Qed.

Lemma iso_fraction_positive : forall p : Z, (1 <= p <= 100)%Z ->
exists m e,
  Prim2SF (float_of_int p / float_of_int 100) = S754_finite false m e.
Proof.
intros p Hp.
assert (H : forallb
              (fun p =>
                 match Prim2SF (float_of_int p / float_of_int 100) with
                 | S754_finite false _ _ => true
                 | _ => false
                 end)
              (py_range 1 101) = true) by (vm_compute; reflexivity).
rewrite forallb_forall in H. specialize (H p).
destruct (Prim2SF (float_of_int p / float_of_int 100)) as [s | s | | s m e];
  try (discriminate H; apply py_range_In; lia).
destruct s; [discriminate H; apply py_range_In; lia | eauto].
Qed.

Lemma flatten_data : forall (A : Type) (a : ndarray A), data (flatten a) = data a.
Proof. reflexivity. Qed.

Section ScriptLemmas.

Variable sf : SpecialFunctions.

Lemma script_inv : forall w out, script sf w = Ok out ->
exists X Y Z D,
  compute_density sf (w_n w) (w_l w) (w_m w)
    (float_of_int (w_grid_range w)) (w_grid_points w) = Ok (X, Y, Z, D)
  /\ np_max D = Ok (iso_isomax out)
  /\ iso_isomin out
     = (float_of_int (w_iso_percent w) / float_of_int 100 * iso_isomax out)%float
  /\ iso_x out = flatten X /\ iso_y out = flatten Y /\ iso_z out = flatten Z
  /\ iso_value out = flatten D.
Proof.
intros w out H. unfold script in H. cbv zeta in H.
destruct (list_index (m_options (w_l w)) 0); [ | discriminate H].
cbn [bind] in H.
destruct (compute_density sf (w_n w) (w_l w) (w_m w)
            (float_of_int (w_grid_range w)) (w_grid_points w))
  as [[[[X Y] Z] D] | ex]; [ | discriminate H].
cbn [bind] in H.
destruct (np_max D) as [mx | ex] eqn:EM; [ | discriminate H].
cbn [bind] in H. injection H as <-. cbn.
exists X, Y, Z, D. repeat split; try reflexivity. exact EM.
Qed.

Lemma script_ok : forall w X Y Z D mx,
compute_density sf (w_n w) (w_l w) (w_m w)
  (float_of_int (w_grid_range w)) (w_grid_points w) = Ok (X, Y, Z, D) ->
np_max D = Ok mx ->
script sf w
= Ok {| iso_x := flatten X; iso_y := flatten Y; iso_z := flatten Z;
        iso_value := flatten D;
        iso_isomin
        := (float_of_int (w_iso_percent w) / float_of_int 100 * mx)%float;
        iso_isomax := mx |}.
Proof.
intros w X Y Z D mx HC HM. unfold script. cbv zeta.
rewrite m_options_index_zero. cbn [bind].
rewrite HC. cbn [bind]. rewrite HM. reflexivity.
Qed.

Lemma compute_density_sizes : forall n l m e k X Y Z D,
compute_density sf n l m e k = Ok (X, Y, Z, D) ->
let c := Z.to_nat k in
List.length (data X) = (c * (c * c))%nat
/\ List.length (data Y) = (c * (c * c))%nat
/\ List.length (data Z) = (c * (c * c))%nat
/\ List.length (data D) = (c * (c * c))%nat
/\ forall d, In d (data D) -> (0 <=? d)%float = true \/ is_nan d = true.
Proof.
intros n l m e k X Y Z D H c. rewrite compute_density_of_frame in H.
destruct (compute_density_frame sf n l m e k) as [fr | ex] eqn:E;
  [ | discriminate H].
injection H as <- <- <- <-.
pose proof E as Hs. apply compute_density_frame_sizes in Hs. cbv zeta in Hs.
destruct Hs as (_ & Lx & _ & _ & _ & _ & _ & _ & LX & _ & _ & _ & LD).
pose proof E as Hinv. apply compute_density_frame_inv in Hinv.
destruct Hinv as (_ & _ & _ & Hm & _).
apply meshgrid_ij_length in Hm. cbv zeta in Hm.
destruct Hm as (_ & _ & _ & _ & LY & LZ). rewrite Lx in LY, LZ.
fold c in LX, LY, LZ, LD.
repeat split; try assumption.
intros d Hd. eapply compute_density_frame_sign; eassumption.
Qed.

(** X7.  [compute_density] accepts a grid of 0 points and returns four
    empty arrays, but the script cannot go on from them: for every valid
    [(n, l)], [np.max(density)] then raises [ValueError], the maximum of
    an empty array having no identity. *)
Theorem X7_empty_grid_has_no_maximum : forall w : widgets,
  (1 <= w_n w)%Z -> (0 <= w_l w <= w_n w - 1)%Z -> w_grid_points w = 0%Z ->
  is_ok (compute_density sf (w_n w) (w_l w) (w_m w)
           (float_of_int (w_grid_range w)) (w_grid_points w)) = true
  /\ script sf w
     = Raise (ValueError
                "zero-size array to reduction operation maximum which has no identity").
Proof.
  intros w Hn Hl Hk.
  destruct (compute_density_frame_ok sf (w_m w) (float_of_int (w_grid_range w))
              Hn Hl (k := w_grid_points w)) as [fr Hfr]; [lia | ].
  assert (HC : compute_density sf (w_n w) (w_l w) (w_m w)
                 (float_of_int (w_grid_range w)) (w_grid_points w)
               = Ok (v_X fr, v_Y fr, v_Z fr, v_density fr))
    by (rewrite compute_density_of_frame, Hfr; reflexivity).
  split; [rewrite HC; reflexivity | ].
  unfold script. cbv zeta.
  rewrite m_options_index_zero. cbn [bind].
  rewrite HC. cbn [bind].
  apply compute_density_sizes in HC. cbv zeta in HC.
  destruct HC as (_ & _ & _ & LD & _). rewrite Hk in LD.
  rewrite np_max_empty; [reflexivity | ].
  destruct (data (v_density fr)); [reflexivity | discriminate LD].
Qed.

(** X8.  For every setting the widgets offer, the script runs to the plot
    without an exception: neither [m_options.index(0)], nor
    [compute_density], nor [np.max] raises.  The four flattened arrays
    handed to the isosurface have the same length, [grid_points^3], and
    both [isomax = max_density] and [isomin = isovalue] are [>= 0] or
    NaN. *)
Theorem X8_script_runs : forall w : widgets, offered w ->
  exists out,
    script sf w = Ok out
    /\ (let c := Z.to_nat (w_grid_points w) in
        List.length (data (iso_x out)) = (c * (c * c))%nat
        /\ List.length (data (iso_y out)) = (c * (c * c))%nat
        /\ List.length (data (iso_z out)) = (c * (c * c))%nat
        /\ List.length (data (iso_value out)) = (c * (c * c))%nat)
    /\ ((0 <=? iso_isomax out)%float = true \/ is_nan (iso_isomax out) = true)
    /\ ((0 <=? iso_isomin out)%float = true \/ is_nan (iso_isomin out) = true).
Proof.
  intros w (Hn & Hl & Hm & Hk & Hg & Hp).
  apply py_range_In in Hn. unfold l_options in Hl. apply py_range_In in Hl.
  destruct (compute_density_frame_ok sf (w_m w) (float_of_int (w_grid_range w))
              (n := w_n w) (l := w_l w) (k := w_grid_points w))
    as [fr Hfr]; try lia.
  assert (HC : compute_density sf (w_n w) (w_l w) (w_m w)
                 (float_of_int (w_grid_range w)) (w_grid_points w)
               = Ok (v_X fr, v_Y fr, v_Z fr, v_density fr))
    by (rewrite compute_density_of_frame, Hfr; reflexivity).
  pose proof HC as Hs. apply compute_density_sizes in Hs. cbv zeta in Hs.
  destruct Hs as (LX & LY & LZ & LD & Hsign).
  destruct (@np_max_ok (v_density fr)) as [mx Hmx].
  { intros E. rewrite E in LD. cbn [List.length] in LD.
    assert (30 <= Z.to_nat (w_grid_points w))%nat by lia. nia. }
  eexists. split; [exact (script_ok w HC Hmx) | ].
  cbn [iso_x iso_y iso_z iso_value iso_isomin iso_isomax]. cbv zeta.
  rewrite !flatten_data.
  split; [repeat split; assumption | ].
  assert (Hs : (0 <=? mx)%float = true \/ is_nan mx = true).
  { apply Hsign. apply np_max_inv in Hmx. apply Hmx. }
  split; [exact Hs | ].
  destruct (iso_fraction_positive Hp) as (mc & ec & Hc).
  exact (@Order64.mul_sign _ _ mc ec Hc Hs).
Qed.

(** X9.  Whenever the script gets to the plot, [max_density] is an entry
    of the field.  It is NaN exactly when some entry is NaN, and the
    isosurface level is then NaN too; when no entry is NaN it is an upper
    bound of all entries. *)
Theorem X9_maximum_of_field : forall (w : widgets) (out : isosurface),
  script sf w = Ok out ->
  In (iso_isomax out) (data (iso_value out))
  /\ (is_nan (iso_isomax out) = true
      <-> exists d, In d (data (iso_value out)) /\ is_nan d = true)
  /\ (is_nan (iso_isomax out) = true -> is_nan (iso_isomin out) = true)
  /\ ((forall d, In d (data (iso_value out)) -> is_nan d = false) ->
      forall d, In d (data (iso_value out)) ->
        (d <=? iso_isomax out)%float = true).
Proof.
  intros w out H. apply script_inv in H.
  destruct H as (X & Y & Z & D & _ & Hmx & Hmin & _ & _ & _ & ->).
  rewrite flatten_data. apply np_max_inv in Hmx.
  destruct Hmx as (I1 & I2 & I3).
  split; [exact I1 | ]. split; [exact I2 | ]. split; [ | exact I3].
  intros Hn.
  rewrite Hmin, (@Order64.is_nan_eq (iso_isomax out) Hn), Order64.mul_nan_r.
  reflexivity.
Qed.

(** X16.  At the upper end of the level slider, 100 %, the isosurface
    level is the maximum itself: [isomin = isomax]. *)
Theorem X16_full_percent_level : forall (w : widgets) (out : isosurface),
  script sf w = Ok out -> w_iso_percent w = 100%Z ->
  iso_isomin out = iso_isomax out.
Proof.
  intros w out H Hp. apply script_inv in H.
  destruct H as (X & Y & Z & D & _ & _ & Hmin & _).
  rewrite Hmin, Hp.
  change (float_of_int 100 / float_of_int 100)%float with 1%float.
  apply Order64.mul_one_l.
Qed.

End ScriptLemmas.

Lemma X7_empty_grid_has_no_maximum_witness :
  is_ok (compute_density RefLib.lib 1 0 0 (float_of_int 20) 0) = true
  /\ script RefLib.lib
       {| w_n := 1; w_l := 0; w_m := 0; w_grid_points := 0;
          w_grid_range := 20; w_iso_percent := 1 |}
     = Raise (ValueError
                "zero-size array to reduction operation maximum which has no identity").
Proof.
  apply (@X7_empty_grid_has_no_maximum RefLib.lib
           {| w_n := 1; w_l := 0; w_m := 0; w_grid_points := 0;
              w_grid_range := 20; w_iso_percent := 1 |});
    cbn; lia.
Defined.

Lemma X8_script_runs_witness :
  exists out,
    script RefLib.lib
      {| w_n := 2; w_l := 1; w_m := 0; w_grid_points := 30;
         w_grid_range := 20; w_iso_percent := 1 |} = Ok out
    /\ (List.length (data (iso_x out))
        = (Z.to_nat 30 * (Z.to_nat 30 * Z.to_nat 30))%nat
        /\ List.length (data (iso_y out))
           = (Z.to_nat 30 * (Z.to_nat 30 * Z.to_nat 30))%nat
        /\ List.length (data (iso_z out))
           = (Z.to_nat 30 * (Z.to_nat 30 * Z.to_nat 30))%nat
        /\ List.length (data (iso_value out))
           = (Z.to_nat 30 * (Z.to_nat 30 * Z.to_nat 30))%nat)
    /\ ((0 <=? iso_isomax out)%float = true \/ is_nan (iso_isomax out) = true)
    /\ ((0 <=? iso_isomin out)%float = true \/ is_nan (iso_isomin out) = true).
Proof.
  apply (@X8_script_runs RefLib.lib
           {| w_n := 2; w_l := 1; w_m := 0; w_grid_points := 30;
              w_grid_range := 20; w_iso_percent := 1 |}).
  unfold offered. cbn [w_n w_l w_m w_grid_points w_grid_range w_iso_percent].
  repeat split; try lia; vm_compute; tauto.
Defined.

Lemma X9_maximum_of_field_witness :
  exists out,
    script RefLib.lib
      {| w_n := 1; w_l := 0; w_m := 0; w_grid_points := 2;
         w_grid_range := 20; w_iso_percent := 50 |} = Ok out
    /\ In (iso_isomax out) (data (iso_value out))
    /\ (is_nan (iso_isomax out) = true
        <-> exists d, In d (data (iso_value out)) /\ is_nan d = true)
    /\ (is_nan (iso_isomax out) = true -> is_nan (iso_isomin out) = true)
    /\ ((forall d, In d (data (iso_value out)) -> is_nan d = false) ->
        forall d, In d (data (iso_value out)) ->
          (d <=? iso_isomax out)%float = true).
Proof.
  destruct (script RefLib.lib
              {| w_n := 1; w_l := 0; w_m := 0; w_grid_points := 2;
                 w_grid_range := 20; w_iso_percent := 50 |})
    as [out | ex] eqn:E.
  - exists out. split; [reflexivity | ].
    apply (@X9_maximum_of_field RefLib.lib _ out E).
  - vm_compute in E. discriminate E.
Defined.

Lemma X16_full_percent_level_witness :
  exists out,
    script RefLib.lib
      {| w_n := 1; w_l := 0; w_m := 0; w_grid_points := 2;
         w_grid_range := 20; w_iso_percent := 100 |} = Ok out
    /\ iso_isomin out = iso_isomax out.
Proof.
  destruct (script RefLib.lib
              {| w_n := 1; w_l := 0; w_m := 0; w_grid_points := 2;
                 w_grid_range := 20; w_iso_percent := 100 |})
    as [out | ex] eqn:E.
  - exists out. split; [reflexivity | ].
    apply (@X16_full_percent_level RefLib.lib _ out E). reflexivity.
  - vm_compute in E. discriminate E.
Defined.

(** ** The end points of the axis *)

Lemma set_last_last : forall (l : list float) (stop : float), l <> [] ->
nth_error (set_last l stop) (List.length l - 1) = Some stop.
Proof.
induction l as [ | a [ | b l] IH]; intros stop H; try congruence.
- reflexivity.
- change (set_last (a :: b :: l) stop) with (a :: set_last (b :: l) stop).
  replace (List.length (a :: b :: l) - 1)%nat with (S (List.length (b :: l) - 1))
    by (cbn [List.length]; lia).
  cbn [nth_error]. apply IH. discriminate.
Qed.

Lemma set_last_head : forall (a b : float) (l : list float) (stop : float),
nth_error (set_last (a :: b :: l) stop) 0 = Some a.
Proof. reflexivity. Qed.

(** With at least two samples the last one is [stop] itself. *)
Lemma linspace_last : forall start stop num x,
linspace start stop num = Ok x -> (2 <= num)%Z ->
nth_error x (Z.to_nat num - 1) = Some stop.
Proof.
intros start stop num x H Hn.
pose proof H as HL. apply linspace_inv in HL. destruct HL as [HL _].
unfold linspace in H.
destruct (Z.ltb_spec num 0); [lia | ].
destruct (Z.ltb_spec 1 num); [ | lia].
injection H as <-.
match goal with
| |- nth_error (set_last ?Y _) _ = _ => generalize dependent Y
end.
intros Y HL. rewrite set_last_length in HL. rewrite <- HL.
apply set_last_last. intros E. rewrite E in HL. cbn in HL. lia.
Qed.

(** With at least two samples and a finite step the first one is [start]
    itself. *)
Lemma linspace_first : forall start stop num x,
linspace start stop num = Ok x -> (2 <= num)%Z ->
is_finite ((stop - start) / float_of_int (num - 1)) = true ->
(start =? 0)%float = false ->
nth_error x 0 = Some start.
Proof.
intros start stop num x H Hn Hs H0.
unfold linspace in H.
destruct (Z.ltb_spec num 0); [lia | ].
destruct (Z.ltb_spec 1 num); [ | lia].
destruct (Z.ltb_spec 0 (num - 1)); [ | lia].
assert (Hd : finite_or_infinite (num - 1 <? 0)%Z
               (Prim2SF (float_of_int (num - 1))))
  by (apply Binary64.Prim2SF_float_of_int; lia).
destruct (Z.to_nat num) as [ | [ | c]] eqn:Ec; try lia.
injection H as <-.
cbn [arange_from].
destruct ((stop - start) / float_of_int (num - 1) =? 0)%float;
  cbn [map]; rewrite set_last_head; f_equal.
- destruct (@Order64.zero_div_int _ _ Hd) as (s1 & Z1).
  change (float_of_int 0) with 0%float.
  destruct (@Order64.zero_mul_zero_or_finite _ (stop - start)%float _ Z1)
    as (s2 & Z2).
  { eapply Order64.div_finite_numerator; eassumption. }
  eapply Order64.zero_add; eassumption.
- change (float_of_int 0) with 0%float.
  destruct (@Order64.zero_mul_finite _ (@Order64.is_finite_cases _ Hs))
    as (s1 & Z1).
  eapply Order64.zero_add; eassumption.
Qed.

(** With one sample and a finite span the sample is [start]. *)
Lemma linspace_single : forall start stop : float,
is_finite (stop - start) = true -> (start =? 0)%float = false ->
linspace start stop 1 = Ok [start].
Proof.
intros start stop Hs H0. unfold linspace.
change (1 <? 0)%Z with false. change (0 <? 1 - 1)%Z with false.
change (1 <? 1)%Z with false. change (Z.to_nat 1) with 1%nat.
cbn [arange_from map].
change (float_of_int 0) with 0%float.
destruct (@Order64.zero_mul_finite _ (@Order64.is_finite_cases _ Hs))
  as (s1 & Z1).
do 2 f_equal. eapply Order64.zero_add; eassumption.
Qed.

Section Slabs.

Variable sf : SpecialFunctions.

(** The [x]-slab of index [i] holds the [i]-th axis sample. *)
Lemma compute_density_frame_slab : forall n l m e k fr i xi j q,
compute_density_frame sf n l m e k = Ok fr ->
nth_error (v_x fr) i = Some xi ->
(j < Z.to_nat k)%nat -> (q < Z.to_nat k)%nat ->
getitem3 (v_X fr) i j q = Some xi
/\ getitem3 (v_density fr) i j q
   = if ge0 xi then Some 0%float
     else nth_error (data (v_density_51 fr))
            ((i * Z.to_nat k + j) * Z.to_nat k + q).
Proof.
intros n l m e k fr i xi j q H Hi Hj Hq.
pose proof H as Hinv. apply compute_density_frame_inv in Hinv.
destruct Hinv as (_ & _ & _ & Hm & _).
pose proof H as Hs. apply compute_density_frame_sizes in Hs. cbv zeta in Hs.
destruct Hs as (_ & Lx & SX & _ & _ & _ & _ & SD & _).
assert (Ej : exists yj, nth_error (v_x fr) j = Some yj).
{ destruct (nth_error (v_x fr) j) eqn:E; [eauto | ].
  apply nth_error_None in E. lia. }
assert (Eq : exists zq, nth_error (v_x fr) q = Some zq).
{ destruct (nth_error (v_x fr) q) eqn:E; [eauto | ].
  apply nth_error_None in E. lia. }
destruct Ej as (yj & Ej). destruct Eq as (zq & Eq).
destruct (meshgrid_ij_nth i j q Hm Hi Ej Eq) as (GX & _).
split; [exact GX | ].
rewrite (getitem3_cube _ _ _ _ SD).
rewrite (getitem3_cube _ _ _ _ SX) in GX.
eapply compute_density_frame_mask; eassumption.
Qed.

(** X10.  With at least two points per axis the last axis sample is
    [grid_range] itself, whatever the rounding of the step: the slab of
    highest [x] index lies at [x = grid_range], and for a non-negative
    range the returned field is zero all over it. *)
Theorem X10_last_slab_is_zero : forall n l m e k fr j q,
  compute_density_frame sf n l m e k = Ok fr ->
  (2 <= k)%Z -> (j < Z.to_nat k)%nat -> (q < Z.to_nat k)%nat ->
  nth_error (v_x fr) (Z.to_nat k - 1) = Some e
  /\ getitem3 (v_X fr) (Z.to_nat k - 1) j q = Some e
  /\ ((0 <=? e)%float = true ->
      getitem3 (v_density fr) (Z.to_nat k - 1) j q = Some 0%float).
Proof.
  intros n l m e k fr j q H Hk Hj Hq.
  pose proof H as Hinv. apply compute_density_frame_inv in Hinv.
  destruct Hinv as (Hx & _).
  pose proof Hx as Hlast. apply linspace_last in Hlast; [ | exact Hk].
  destruct (@compute_density_frame_slab n l m e k fr _ _ j q H Hlast Hj Hq)
    as (GX & GD).
  split; [exact Hlast | ]. split; [exact GX | ].
  intros He. rewrite GD. unfold ge0. rewrite He. reflexivity.
Qed.

(** X11.  With at least two points per axis, a positive range and a finite
    step [2 * grid_range / (grid_points - 1)], the first axis sample is
    [-grid_range] itself: the slab of [x] index 0 lies at
    [x = -grid_range], the mask leaves it alone, and the returned field
    holds there the squared modulus computed at line 51. *)
Theorem X11_first_slab_is_kept : forall n l m e k fr j q,
  compute_density_frame sf n l m e k = Ok fr ->
  (2 <= k)%Z -> (j < Z.to_nat k)%nat -> (q < Z.to_nat k)%nat ->
  is_finite ((e - - e) / float_of_int (k - 1)) = true ->
  (0 <? e)%float = true ->
  nth_error (v_x fr) 0 = Some (- e)%float
  /\ getitem3 (v_X fr) 0 j q = Some (- e)%float
  /\ getitem3 (v_density fr) 0 j q
     = nth_error (data (v_density_51 fr)) (j * Z.to_nat k + q).
Proof.
  intros n l m e k fr j q H Hk Hj Hq Hs He.
  pose proof H as Hinv. apply compute_density_frame_inv in Hinv.
  destruct Hinv as (Hx & _).
  pose proof (@Order64.eqb_opp_pos e He) as H0.
  pose proof Hx as Hfirst. apply linspace_first in Hfirst; try assumption.
  destruct (@compute_density_frame_slab n l m e k fr _ _ j q H Hfirst Hj Hq)
    as (GX & GD).
  split; [exact Hfirst | ]. split; [exact GX | ].
  rewrite GD. unfold ge0. rewrite (@Order64.leb_opp_pos e He). reflexivity.
Qed.

(** X15.  With a single grid point, a positive range and a finite span,
    the only sample of each axis is [-grid_range]: the grid is the corner
    [(-grid_range, -grid_range, -grid_range)], not the centre, the mask
    does not apply to it, and the field has the one entry line 51
    computed. *)
Theorem X15_single_point_grid : forall n l m e,
  (1 <= n)%Z -> (0 <= l <= n - 1)%Z ->
  is_finite (e - - e) = true -> (0 <? e)%float = true ->
  exists fr,
    compute_density_frame sf n l m e 1 = Ok fr
    /\ v_x fr = [(- e)%float]
    /\ data (v_X fr) = [(- e)%float]
    /\ data (v_Y fr) = [(- e)%float]
    /\ data (v_Z fr) = [(- e)%float]
    /\ data (v_mask fr) = [false]
    /\ data (v_density fr) = data (v_density_51 fr)
    /\ List.length (data (v_density fr)) = 1%nat.
Proof.
  intros n l m e Hn Hl Hs He.
  pose proof (@Order64.eqb_opp_pos e He) as H0.
  destruct (@compute_density_frame_ok sf n l m e 1%Z Hn Hl) as [fr Hfr]; [lia | ].
  exists fr. split; [exact Hfr | ].
  pose proof Hfr as Hinv. apply compute_density_frame_inv in Hinv.
  destruct Hinv
    as (Hx & _ & _ & Hm & _ & _ & _ & _ & _ & _ & _ & Hmk & Hden).
  pose proof Hfr as Hsz. apply compute_density_frame_sizes in Hsz.
  cbv zeta in Hsz.
  destruct Hsz as (_ & _ & _ & _ & _ & _ & _ & _ & _ & _ & _ & L51 & LD).
  rewrite (@linspace_single (- e)%float e Hs H0) in Hx. injection Hx as Hx.
  rewrite <- Hx in Hm. unfold meshgrid_ij in Hm. cbn in Hm.
  injection Hm as HX HY HZ.
  assert (Emask : data (v_mask fr) = [false]).
  { rewrite Hmk, <- HX. cbn. unfold ge0. rewrite (@Order64.leb_opp_pos e He).
    reflexivity. }
  repeat split; try (symmetry; assumption).
  - rewrite <- HX. reflexivity.
  - rewrite <- HY. reflexivity.
  - rewrite <- HZ. reflexivity.
  - exact Emask.
  - rewrite Hden. unfold setitem_mask. cbn [azip data]. rewrite Emask.
    change (Z.to_nat 1) with 1%nat in L51.
    destruct (data (v_density_51 fr)) as [ | d [ | d' ds]];
      try discriminate L51. reflexivity.
  - exact LD.
Qed.

End Slabs.

Lemma X10_last_slab_is_zero_witness :
  exists fr,
    compute_density_frame RefLib.lib 1 0 0 15 3 = Ok fr
    /\ nth_error (v_x fr) (Z.to_nat 3 - 1) = Some 15%float
    /\ getitem3 (v_X fr) (Z.to_nat 3 - 1) 1 2 = Some 15%float
    /\ getitem3 (v_density fr) (Z.to_nat 3 - 1) 1 2 = Some 0%float.
Proof.
  destruct (compute_density_frame RefLib.lib 1 0 0 15 3) as [fr | ex] eqn:E.
  - exists fr. split; [reflexivity | ].
    destruct (@X10_last_slab_is_zero RefLib.lib 1 0 0 15 3 fr 1%nat 2%nat E)
      as (H1 & H2 & H3); [lia | vm_compute; lia | vm_compute; lia | ].
    split; [exact H1 | ]. split; [exact H2 | ]. apply H3. reflexivity.
  - vm_compute in E. discriminate E.
Defined.

Lemma X11_first_slab_is_kept_witness :
  exists fr,
    compute_density_frame RefLib.lib 1 0 0 15 3 = Ok fr
    /\ nth_error (v_x fr) 0 = Some (- 15)%float
    /\ getitem3 (v_X fr) 0 1 2 = Some (- 15)%float
    /\ getitem3 (v_density fr) 0 1 2
       = nth_error (data (v_density_51 fr)) (1 * Z.to_nat 3 + 2).
Proof.
  destruct (compute_density_frame RefLib.lib 1 0 0 15 3) as [fr | ex] eqn:E.
  - exists fr. split; [reflexivity | ].
    apply (@X11_first_slab_is_kept RefLib.lib 1 0 0 15 3 fr 1%nat 2%nat E);
      try lia; try (vm_compute; lia); reflexivity.
  - vm_compute in E. discriminate E.
Defined.

Lemma X15_single_point_grid_witness :
  exists fr,
    compute_density_frame RefLib.lib 2 1 0 15 1 = Ok fr
    /\ v_x fr = [(- 15)%float]
    /\ data (v_X fr) = [(- 15)%float]
    /\ data (v_Y fr) = [(- 15)%float]
    /\ data (v_Z fr) = [(- 15)%float]
    /\ data (v_mask fr) = [false]
    /\ data (v_density fr) = data (v_density_51 fr)
    /\ List.length (data (v_density fr)) = 1%nat.
Proof.
  apply (@X15_single_point_grid RefLib.lib 2 1 0 15); try lia; reflexivity.
Defined.

(** ** The argument of arccos *)

Lemma np_clip_unit : forall v : float,
(is_nan v = true /\ np_clip v (-1) 1 = v)
\/ (is_nan v = false
    /\ (-1 <=? np_clip v (-1) 1)%float = true
    /\ (np_clip v (-1) 1 <=? 1)%float = true).
Proof.
intros v. unfold np_clip, npy_max, npy_min.
destruct (is_nan v) eqn:Hn; cbn [orb].
- left. rewrite Hn. cbn [orb]. auto.
- right. split; [reflexivity | ].
  destruct (-1 <? v)%float eqn:E1.
  + rewrite Hn. cbn [orb].
    destruct (v <? 1)%float eqn:E2.
    * split; apply Order64.ltb_leb; assumption.
    * split; reflexivity.
  + split; reflexivity.
Qed.

Section Pointwise.

Variable sf : SpecialFunctions.

Lemma radial_wavefunction_ok_valid : forall n l r R,
radial_wavefunction sf n l r = Ok R -> (1 <= n)%Z /\ (0 <= l <= n - 1)%Z.
Proof.
intros n l r R H. unfold radial_wavefunction in H. cbv zeta in H.
destruct (py_truediv 2 (float_of_int n * 1)); [ | discriminate H].
cbn [bind] in H. unfold genlaguerre in H.
destruct (Z.leb_spec (2 * l + 1) (-1)); [discriminate H | ].
destruct (Z.ltb_spec (n - l - 1) 0); [discriminate H | ].
lia.
Qed.

(** X12.  [np.arccos] is only ever given NaN or a number of [[-1, 1]]:
    every entry of [theta] is the arccos of the clipped quotient [Z / r]
    of its grid point, the clipped value lies between -1 and 1 unless the
    quotient is NaN, and a NaN quotient (as [0 / 0] at the origin) goes
    through the clip unchanged. *)
Theorem X12_arccos_argument : forall n l m e k fr t th,
  compute_density_frame sf n l m e k = Ok fr ->
  nth_error (data (v_theta fr)) t = Some th ->
  exists zt rt,
    nth_error (data (v_Z fr)) t = Some zt
    /\ nth_error (data (v_r fr)) t = Some rt
    /\ th = libm_acos sf (np_clip (zt / rt) (-1) 1)
    /\ ((is_nan (zt / rt) = true /\ np_clip (zt / rt) (-1) 1 = (zt / rt)%float)
        \/ (is_nan (zt / rt) = false
            /\ (-1 <=? np_clip (zt / rt) (-1) 1)%float = true
            /\ (np_clip (zt / rt) (-1) 1 <=? 1)%float = true)).
Proof.
  intros n l m e k fr t th H Ht.
  apply compute_density_frame_inv in H.
  destruct H as (_ & _ & _ & _ & _ & Hth & _).
  rewrite Hth in Ht. cbn [amap azip data] in Ht.
  rewrite !nth_error_map, nth_error_zip_with_match in Ht.
  destruct (nth_error (data (v_Z fr)) t) as [zt | ]; [ | discriminate Ht].
  destruct (nth_error (data (v_r fr)) t) as [rt | ]; [ | discriminate Ht].
  cbn [option_map] in Ht. injection Ht as <-.
  exists zt, rt. repeat split. apply np_clip_unit.
Qed.

(** The value lines 44-55 leave at a grid point is a function of the
    point's three coordinates. *)
Lemma compute_density_frame_pointwise : forall n l m : Z,
exists F : float -> float -> float -> float,
forall e k fr t x y z,
  compute_density_frame sf n l m e k = Ok fr ->
  nth_error (data (v_X fr)) t = Some x ->
  nth_error (data (v_Y fr)) t = Some y ->
  nth_error (data (v_Z fr)) t = Some z ->
  nth_error (data (v_density fr)) t = Some (F x y z).
Proof.
intros n l m.
exists (fun x y z =>
          let r := sqrt (x * x + y * y + z * z) in
          let theta := libm_acos sf (np_clip (z / r) (-1) 1) in
          let phi := libm_atan2 sf y x in
          let psi :=
            real_times_complex (radial_at sf n l r) (sp_sph_harm sf m l phi theta) in
          if ge0 x then 0
          else np_abs_complex sf psi * np_abs_complex sf psi)%float.
intros e k fr t x y z H HX HY HZ.
apply compute_density_frame_inv in H.
destruct H as (_ & _ & _ & _ & Hr & Hth & Hph & HR & HA & Hpsi & Hd & Hmk & Hden).
destruct (radial_wavefunction_ok_valid _ _ _ HR) as [Hn Hl].
rewrite radial_wavefunction_valid in HR by assumption. injection HR as HR.
rewrite Hden, Hmk, Hd, Hpsi, HA, <- HR, Hph, Hth, Hr.
unfold setitem_mask, angular_wavefunction. cbn [amap azip data].
repeat (rewrite ?nth_error_zip_with_match, ?nth_error_map, ?HX, ?HY, ?HZ;
        cbn [option_map]).
destruct (ge0 x); reflexivity.
Qed.

(** X13.  The value of the field at a grid point depends on the quantum
    numbers and on the three coordinates of the point only, not on the
    grid: two calls with the same [(n, l, m)] and any two grids hold the
    same value wherever their grids have a point in common. *)
Theorem X13_value_depends_on_point_only :
  forall n l m e1 k1 e2 k2 fr1 fr2 t1 t2 x y z,
  compute_density_frame sf n l m e1 k1 = Ok fr1 ->
  compute_density_frame sf n l m e2 k2 = Ok fr2 ->
  nth_error (data (v_X fr1)) t1 = Some x ->
  nth_error (data (v_Y fr1)) t1 = Some y ->
  nth_error (data (v_Z fr1)) t1 = Some z ->
  nth_error (data (v_X fr2)) t2 = Some x ->
  nth_error (data (v_Y fr2)) t2 = Some y ->
  nth_error (data (v_Z fr2)) t2 = Some z ->
  exists d,
    nth_error (data (v_density fr1)) t1 = Some d
    /\ nth_error (data (v_density fr2)) t2 = Some d.
Proof.
  intros n l m e1 k1 e2 k2 fr1 fr2 t1 t2 x y z H1 H2 X1 Y1 Z1 X2 Y2 Z2.
  destruct (compute_density_frame_pointwise n l m) as (F & HF).
  exists (F x y z). split; eapply HF; eassumption.
Qed.

End Pointwise.

Lemma X12_arccos_argument_witness :
  exists fr zt rt,
    compute_density_frame RefLib.lib 1 0 0 15 2 = Ok fr
    /\ nth_error (data (v_Z fr)) 0 = Some zt
    /\ nth_error (data (v_r fr)) 0 = Some rt
    /\ nth_error (data (v_theta fr)) 0
       = Some (libm_acos RefLib.lib (np_clip (zt / rt) (-1) 1))
    /\ ((is_nan (zt / rt) = true /\ np_clip (zt / rt) (-1) 1 = (zt / rt)%float)
        \/ (is_nan (zt / rt) = false
            /\ (-1 <=? np_clip (zt / rt) (-1) 1)%float = true
            /\ (np_clip (zt / rt) (-1) 1 <=? 1)%float = true)).
Proof.
  destruct (compute_density_frame RefLib.lib 1 0 0 15 2) as [fr | ex] eqn:E.
  - destruct (nth_error (data (v_theta fr)) 0) as [th | ] eqn:Eth.
    + destruct (@X12_arccos_argument RefLib.lib 1 0 0 15 2 fr 0%nat th E Eth)
        as (zt & rt & HZ & Hr & Hth & Hc).
      exists fr, zt, rt. split; [reflexivity | ].
      split; [exact HZ | ]. split; [exact Hr | ].
      split; [rewrite Eth, Hth; reflexivity | exact Hc].
    + pose proof E as E'. vm_compute in E'. injection E' as <-.
      vm_compute in Eth. discriminate Eth.
  - vm_compute in E. discriminate E.
Defined.

Lemma X13_value_depends_on_point_only_witness :
  exists fr1 fr2 d,
    compute_density_frame RefLib.lib 2 1 0 15 2 = Ok fr1
    /\ compute_density_frame RefLib.lib 2 1 0 15 3 = Ok fr2
    /\ nth_error (data (v_density fr1)) 0 = Some d
    /\ nth_error (data (v_density fr2)) 0 = Some d.
Proof.
  destruct (compute_density_frame RefLib.lib 2 1 0 15 2) as [fr1 | ex] eqn:E1.
  - destruct (compute_density_frame RefLib.lib 2 1 0 15 3) as [fr2 | ex] eqn:E2.
    + destruct (@X13_value_depends_on_point_only
                  RefLib.lib 2 1 0 15 2 15 3 fr1 fr2 0%nat 0%nat
                  (- 15) (- 15) (- 15) E1 E2)%float
        as (d & D1 & D2);
        try (pose proof E1 as E'; vm_compute in E'; injection E' as <-;
             reflexivity);
        try (pose proof E2 as E'; vm_compute in E'; injection E' as <-;
             reflexivity).
      exists fr1, fr2, d. repeat split; assumption.
    + vm_compute in E2. discriminate E2.
  - vm_compute in E1. discriminate E1.
Defined.

(** ** The radial evaluator on the heap *)

Lemma load_float_prefix : forall (h s : heap) (p : ref) (a : ndarray float),
nth_error h p = Some (FloatArray a) ->
load_float p (h ++ s) = Some (Ok a, h ++ s).
Proof.
intros h s p a H. unfold load_float.
rewrite nth_error_app1 by (apply nth_error_Some; congruence).
rewrite H. reflexivity.
Qed.

Lemma nth_error_prefix : forall (h s : heap) (p : ref) (o : obj),
nth_error h p = Some o -> nth_error (h ++ s) p = Some o.
Proof.
intros h s p o H.
rewrite nth_error_app1 by (apply nth_error_Some; congruence). exact H.
Qed.

(** X14.  [radial_wavefunction] does not write to the array it is given:
    [r = np.maximum(r, 1e-10)] rebinds the local name to a new array.
    Started in any heap with its argument pointing to an array [a], the
    call only appends objects to the heap, leaves [a] as it was, and
    returns a new array holding what the function of [(n, l, a)]
    determines, or raises the exception it determines. *)
Theorem X14_radial_leaves_its_argument :
  forall sf (n l : Z) (h : heap) (pr : ref) (a : ndarray float),
  nth_error h pr = Some (FloatArray a) ->
  exists news,
    nth_error (h ++ news) pr = Some (FloatArray a)
    /\ match radial_wavefunction sf n l a with
       | Ok R =>
           exists p,
             radial_wavefunction_h sf n l pr h = Some (Ok p, h ++ news)
             /\ nth_error (h ++ news) p = Some (FloatArray R)
             /\ (List.length h <= p)%nat
       | Raise ex =>
           radial_wavefunction_h sf n l pr h = Some (Raise ex, h ++ news)
       end.
Proof.
  intros sf n l h pr a H.
  replace (radial_wavefunction_h sf n l pr h)
    with (radial_wavefunction_h sf n l pr (h ++ []))
    by (rewrite app_nil_r; reflexivity).
  unfold radial_wavefunction_h, radial_wavefunction.
  cbv [bindM lift ret]. cbv zeta.
  rewrite (@load_float_prefix h [] pr a H).
  repeat heap_step.
  destruct (py_truediv 2 (float_of_int n * 1)) as [q | ex]; cbn [bind].
  2: { eexists. split; [apply nth_error_prefix; exact H | reflexivity]. }
  destruct (genlaguerre sf (n - l - 1) (2 * l + 1)) as [L | ex]; cbn [bind].
  2: { eexists. split; [apply nth_error_prefix; exact H | reflexivity]. }
  repeat heap_step.
  eexists. split; [apply nth_error_prefix; exact H | ].
  eexists. split; [reflexivity | ].
  split; [ | lia].
  rewrite nth_error_suffix. reflexivity.
Qed.

Lemma X14_radial_leaves_its_argument_witness :
  exists news,
    nth_error ([FloatArray (mk_ndarray [1%nat] [0%float])] ++ news) 0
    = Some (FloatArray (mk_ndarray [1%nat] [0%float]))
    /\ match radial_wavefunction RefLib.lib 1 0 (mk_ndarray [1%nat] [0%float]) with
       | Ok R =>
           exists p,
             radial_wavefunction_h RefLib.lib 1 0 0%nat
               [FloatArray (mk_ndarray [1%nat] [0%float])]
             = Some (Ok p, [FloatArray (mk_ndarray [1%nat] [0%float])] ++ news)
             /\ nth_error ([FloatArray (mk_ndarray [1%nat] [0%float])] ++ news) p
                = Some (FloatArray R)
             /\ (List.length [FloatArray (mk_ndarray [1%nat] [0%float])] <= p)%nat
       | Raise ex =>
           radial_wavefunction_h RefLib.lib 1 0 0%nat
             [FloatArray (mk_ndarray [1%nat] [0%float])]
           = Some (Raise ex, [FloatArray (mk_ndarray [1%nat] [0%float])] ++ news)
       end.
Proof.
  apply (@X14_radial_leaves_its_argument RefLib.lib 1 0
           [FloatArray (mk_ndarray [1%nat] [0%float])] 0%nat
           (mk_ndarray [1%nat] [0%float])).
  reflexivity.
Defined.
